(** * Op-AI MCP server: memory tools, tool dispatch and analytics

    A shallow embedding of the TypeScript sources
    - [src/tools/memory/saveMemory.ts], [src/tools/memory/recallMemory.ts],
    - [src/index.ts] (tool registry, [CallTool] dispatch, Smithery entry point),
    - [src/tools/analytics/getUsageAnalytics.ts] ([generateGraphStats]),
    together with a model of the memory store those tools talk to.

    [src/lib/MemoryManager.ts] is not among the sources: the tools are
    embedded over an interface (class [MemoryManager] below) and the store
    itself (records, relations, graph traversal) is modelled from the
    specification, each such definition being marked.

    Part I holds the definitions, Part II the theorems. *)

From Stdlib Require Import QArith Ascii String.
From stdpp Require Import gmap strings list fin_maps pretty.

Local Open Scope string_scope.
Local Open Scope list_scope.

(* ===================================================================== *)
(** * Part I: definitions                                               *)
(* ===================================================================== *)

(* ===================================================================== *)
(** ** JavaScript control flow: values thrown, completions, effects     *)
(* ===================================================================== *)

Module JS.

(** Error codes of the MCP SDK that [index.ts] uses. *)
Inductive ErrorCode := MethodNotFound | InvalidRequest | InternalError.

(** The classes a caught value is tested against with [instanceof]. *)
Inductive ErrorClass :=
| PlainError                     (* Error, or a subclass other than the two below *)
| TypeError
| McpError (code : ErrorCode).   (* McpError extends Error *)

(** A thrown value: an instance of [Error] carrying its [message]
    property, or any other value. *)
Inductive Thrown :=
| ErrorInstance (cls : ErrorClass) (message : string)
| NonError.

(** The completion of a call: it returns a value or throws one.  For an
    [async] function, [Returned] is a fulfilled promise and [Threw] a
    rejected one. *)
Inductive Outcome (A : Type) :=
| Returned (a : A)
| Threw (e : Thrown).
Arguments Returned {A} a.
Arguments Threw {A} e.

(** [error instanceof McpError] *)
Definition instanceof_McpError (e : Thrown) : bool :=
  match e with
  | ErrorInstance (McpError _) _ => true
  | _ => false
  end.

(** [error instanceof Error ? error.message : 'Unknown error'] *)
Definition message_or_unknown (e : Thrown) : string :=
  match e with
  | ErrorInstance _ message => message
  | NonError => "Unknown error"
  end.

(** Effectful computations over a world [W] (the process state: the
    singleton manager and its database): state passing with exceptions. *)
Definition Eff (W A : Type) : Type := W -> W * Outcome A.

Definition ret {W A} (a : A) : Eff W A := fun w => (w, Returned a).

Definition throw {W A} (e : Thrown) : Eff W A := fun w => (w, Threw e).

Definition bind {W A B} (m : Eff W A) (k : A -> Eff W B) : Eff W B :=
  fun w =>
    match m w with
    | (w', Returned a) => k a w'
    | (w', Threw e) => (w', Threw e)
    end.

(** [try { body } catch (error) { handler }] *)
Definition try_catch {W A} (body : Eff W A) (handler : Thrown -> Eff W A)
  : Eff W A :=
  fun w =>
    match body w with
    | (w', Returned a) => (w', Returned a)
    | (w', Threw e) => handler e w'
    end.

(** The double quote and the line feed of the template literals. *)
Definition dquote : string := String (Ascii.ascii_of_nat 34) EmptyString.
Definition newline : string := String (Ascii.ascii_of_nat 10) EmptyString.

End JS.

Export JS.

Notation "'let*' x ':=' m 'in' k" := (JS.bind m (fun x => k))
  (at level 10, x name, m at level 100, k at level 200, only parsing).

(* ===================================================================== *)
(** ** Data model                                                       *)
(* ===================================================================== *)

(** Timestamps are ISO-8601 UTC strings in the store; only their identity
    and order matter here, so they are instants on the integer line. *)
Definition Timestamp := Z.
Bind Scope Z_scope with Timestamp.

(** [MemoryItem] of [types/tool.ts], the rows of table [memories]. *)
Record MemoryRecord := mkMemoryRecord {
  key : string;
  value : string;
  category : string;
  timestamp : Timestamp;
  lastAccessed : Timestamp;
  priority : Z
}.

(** The rows of table [memory_relations].  [rel_id] is the column [id] and
    [rel_timestamp] the column [timestamp]. *)
Record MemoryRelation := mkMemoryRelation {
  rel_id : Z;
  sourceKey : string;
  targetKey : string;
  relationType : string;
  strength : Q;
  metadata : option string;
  rel_timestamp : Timestamp
}.

(** The derived graph returned by [getMemoryGraph]: [graph.nodes],
    [graph.edges], [graph.clusters]. *)
Record MemoryGraph := mkMemoryGraph {
  nodes : list string;
  edges : list MemoryRelation;
  clusters : list (list string)
}.

(** [ToolResult] of [types/tool.ts]: [{ content: [{ type, text }] }]. *)
Record ContentItem := mkContentItem {
  content_type : string;
  text : string
}.

Record ToolResult := mkToolResult {
  content : list ContentItem
}.

(** [{ content: [{ type: 'text', text: t }] }] *)
Definition text_result (t : string) : ToolResult :=
  mkToolResult [mkContentItem "text" t].

(* ===================================================================== *)
(** ** Record Store                                                     *)
(* ===================================================================== *)

Module RecordStore.

(** Modelled from the spec: [MemoryManager.save] is in
    [src/lib/MemoryManager.ts], which is missing.  Spec 4.1: "inserts or
    overwrites (upsert on key).  Sets timestamp=lastAccessed=now on insert;
    on overwrite, preserves original timestamp, updates value/category,
    refreshes lastAccessed."  A new record gets the default priority 0; an
    overwritten one keeps its priority. *)
Definition save (now : Timestamp) (k v c : string)
    (s : gmap string MemoryRecord) : gmap string MemoryRecord :=
  match s !! k with
  | Some old =>
      <[k := mkMemoryRecord k v c (timestamp old) now (priority old)]> s
  | None =>
      <[k := mkMemoryRecord k v c now now 0]> s
  end.

(** Modelled from the spec: [MemoryManager.recall] is in the missing
    [src/lib/MemoryManager.ts].  Spec 4.1: "on hit, updates lastAccessed as
    a side effect and returns the record; on miss, returns a distinguished
    not-found result (not an exception)". *)
Definition recall (now : Timestamp) (k : string)
    (s : gmap string MemoryRecord)
  : gmap string MemoryRecord * option MemoryRecord :=
  match s !! k with
  | Some r =>
      (<[k := mkMemoryRecord (key r) (value r) (category r)
                             (timestamp r) now (priority r)]> s,
       Some r)
  | None => (s, None)
  end.

End RecordStore.

(* ===================================================================== *)
(** ** Relation Store                                                   *)
(* ===================================================================== *)

Module RelationStore.

(** Table [memory_relations]: its rows in insertion order and the next
    value of the AUTOINCREMENT column. *)
Record Relations := mkRelations {
  rows : list MemoryRelation;
  next_id : Z
}.

Definition empty : Relations := mkRelations [] 1.

(** The columns of the UNIQUE(sourceKey, targetKey, relationType)
    constraint of a row are [(a, b, t)]. *)
Definition same_triple (a b t : string) (r : MemoryRelation) : bool :=
  bool_decide (sourceKey r = a) && bool_decide (targetKey r = b)
  && bool_decide (relationType r = t).

(** Rows between the pair [(a, b)], of any relation type. *)
Definition same_pair (a b : string) (r : MemoryRelation) : bool :=
  bool_decide (sourceKey r = a) && bool_decide (targetKey r = b).

Inductive LinkError := InvalidReference.

(** Modelled from the spec: [MemoryManager.linkMemories] is in the missing
    [src/lib/MemoryManager.ts].  Spec 4.2: "link(sourceKey, targetKey,
    relationType, strength=1.0, metadata?): upsert on the unique triple;
    fails with InvalidReference if either key is syntactically empty
    (referential existence is NOT required)"; spec 3: "re-linking the same
    pair with the same type updates rather than duplicates". *)
Definition link (now : Timestamp) (a b t : string) (str : option Q)
    (meta : option string) (s : Relations) : LinkError + Relations :=
  if bool_decide (a = EmptyString) || bool_decide (b = EmptyString)
  then inl InvalidReference
  else
    let w := default 1%Q str in
    if existsb (same_triple a b t) (rows s)
    then inr (mkRelations
                (map (fun r => if same_triple a b t r
                               then mkMemoryRelation (rel_id r) a b t w meta
                                                     (rel_timestamp r)
                               else r)
                     (rows s))
                (next_id s))
    else inr (mkRelations
                (rows s ++ [mkMemoryRelation (next_id s) a b t w meta now])
                (next_id s + 1)).

(** Modelled from the spec: the store's unlink operation is in the missing
    [src/lib/MemoryManager.ts].  Spec 4.2: "unlink(sourceKey, targetKey,
    relationType?) -> bool: removes one edge, or all edges between the pair
    if relationType is omitted". *)
Definition unlink (a b : string) (t : option string) (s : Relations)
  : Relations * bool :=
  let hit := match t with
             | Some ty => same_triple a b ty
             | None => same_pair a b
             end in
  (mkRelations (filter (fun r => hit r = false) (rows s)) (next_id s),
   existsb hit (rows s)).

(** A request sent to the relation store. *)
Inductive Op :=
| Link (now : Timestamp) (a b t : string) (str : option Q)
       (meta : option string)
| Unlink (a b : string) (t : option string).

(** A failed [link] leaves the table as it was. *)
Definition step (s : Relations) (op : Op) : Relations :=
  match op with
  | Link now a b t str meta =>
      match link now a b t str meta s with
      | inr s' => s'
      | inl _ => s
      end
  | Unlink a b t => fst (unlink a b t s)
  end.

Definition run (ops : list Op) (s : Relations) : Relations :=
  fold_left step ops s.

(** The columns of a row under the UNIQUE constraint. *)
Definition triple (r : MemoryRelation) : string * string * string :=
  (sourceKey r, targetKey r, relationType r).

(** The UNIQUE(sourceKey, targetKey, relationType) constraint. *)
Definition unique_triples (s : Relations) : Prop :=
  NoDup (map triple (rows s)).

(** Number of rows carrying the triple [(a, b, t)]. *)
Definition count_triple (a b t : string) (s : Relations) : nat :=
  length (filter (fun r => same_triple a b t r = true) (rows s)).

End RelationStore.

(* ===================================================================== *)
(** ** Graph Engine                                                     *)
(* ===================================================================== *)

Module GraphEngine.

Inductive Strategy := bfs | dfs.

(** The keys one hop away from [k], both directions, in relation
    insertion order. *)
Definition neighbors (es : list MemoryRelation) (k : string) : list string :=
  flat_map (fun e =>
              (if bool_decide (sourceKey e = k) then [targetKey e] else [])
              ++ (if bool_decide (targetKey e = k) then [sourceKey e] else []))
           es.

(** A key that names a stored record; the endpoint of a dangling edge does
    not. *)
Definition known (records : gmap string MemoryRecord) (k : string) : bool :=
  bool_decide (is_Some (records !! k)).

(** The eligible keys among [candidates] that are not in [visited] yet,
    each once, in order of first occurrence. *)
Definition visit_new (eligible : string -> bool) (visited candidates : list string)
  : list string :=
  fold_left (fun acc k =>
               if eligible k && negb (bool_decide (k ∈ visited ++ acc))
               then acc ++ [k] else acc)
            candidates [].

(** Level-by-level visit: [depth] more levels from [frontier]. *)
Fixpoint bfs_levels (eligible : string -> bool) (es : list MemoryRelation)
    (depth : nat) (frontier visited : list string) : list string :=
  match depth with
  | O => visited
  | S d =>
      let next := visit_new eligible visited (flat_map (neighbors es) frontier) in
      bfs_levels eligible es d next (visited ++ next)
  end.

(** Depth-first visit of [k] with [depth] hops left. *)
Fixpoint dfs_visit (eligible : string -> bool) (es : list MemoryRelation)
    (depth : nat) (visited : list string) (k : string) {struct depth}
  : list string :=
  if bool_decide (k ∈ visited) || negb (eligible k) then visited
  else
    let visited' := visited ++ [k] in
    match depth with
    | O => visited'
    | S d => fold_left (dfs_visit eligible es d) (neighbors es k) visited'
    end.

(** The relation set restricted to the keys [ns]. *)
Definition restrict (ns : list string) (es : list MemoryRelation)
  : list MemoryRelation :=
  filter (fun e => sourceKey e ∈ ns /\ targetKey e ∈ ns) es.

(** Insertion of a cluster into a list sorted by descending size. *)
Fixpoint insert_by_size (c : list string) (cs : list (list string))
  : list (list string) :=
  match cs with
  | [] => [c]
  | c' :: rest =>
      if (length c' <? length c)%nat then c :: cs
      else c' :: insert_by_size c rest
  end.

Fixpoint components (es : list MemoryRelation) (ns pending : list string)
    (acc : list (list string)) : list (list string) :=
  match pending with
  | [] => acc
  | k :: rest =>
      if bool_decide (k ∈ concat acc) || bool_decide (neighbors es k = [])
      then components es ns rest acc
      else components es ns rest
             (acc ++ [bfs_levels (fun x => bool_decide (x ∈ ns)) es
                                 (length ns) [k] [k]])
  end.

(** Modelled from the spec: the clustering of the graph engine is in the
    missing [src/lib/MemoryManager.ts].  Spec 4.3: "partitions graph.nodes
    into connected components ... over graph.edges treated as undirected;
    clusters are sorted by descending size"; isolated nodes are left out, as
    the spec recommends. *)
Definition cluster (ns : list string) (es : list MemoryRelation)
  : list (list string) :=
  foldr insert_by_size [] (components es ns ns []).

(** Modelled from the spec: the traversal of the graph engine is in the
    missing [src/lib/MemoryManager.ts].  Spec 4.3: "traverse(rootKey,
    maxDepth, strategy: bfs|dfs) -> MemoryGraph: starting from rootKey,
    visits neighbors (both directions are considered ...) up to maxDepth
    hops.  BFS visits level-by-level (ties broken by relation insertion
    order); DFS visits depth-first.  Each key visited at most once
    (cycle-safe); dangling edges (pointing to deleted records) are silently
    excluded from nodes but their absence does not abort traversal."
    Spec 3: [edges] is "the relation set restricted to those nodes". *)
Definition traverse (records : gmap string MemoryRecord)
    (es : list MemoryRelation) (rootKey : string) (maxDepth : nat)
    (strategy : Strategy) : MemoryGraph :=
  let ns :=
    match strategy with
    | bfs => if known records rootKey
             then bfs_levels (known records) es maxDepth [rootKey] [rootKey]
             else []
    | dfs => dfs_visit (known records) es maxDepth [] rootKey
    end in
  let es' := restrict ns es in
  mkMemoryGraph ns es' (cluster ns es').

(** [y] is one hop from [x]: some relation joins them, in either
    direction. *)
Definition adjacent (es : list MemoryRelation) (x y : string) : Prop :=
  exists e, e ∈ es /\
    ((sourceKey e = x /\ targetKey e = y) \/ (sourceKey e = y /\ targetKey e = x)).

(** [within_hops es root d k]: [k] is reachable from [root] along at most
    [d] relations. *)
Inductive within_hops (es : list MemoryRelation) (root : string)
  : nat -> string -> Prop :=
| hops_root d : within_hops es root d root
| hops_step d x y :
    within_hops es root d x -> adjacent es x y -> within_hops es root (S d) y.

(** The scenario of spec 8: records [a], [b], [c] and the relations
    [a --related_to--> b --depends_on--> c]. *)
Definition chain_records : gmap string MemoryRecord :=
  RecordStore.save 3 "c" "third" "general"
    (RecordStore.save 2 "b" "second" "general"
       (RecordStore.save 1 "a" "first" "general" ∅)).

Definition chain_relations : list MemoryRelation :=
  match RelationStore.link 5 "b" "c" "depends_on" None None
          (RelationStore.step RelationStore.empty
             (RelationStore.Link 4 "a" "b" "related_to" None None)) with
  | inr s => RelationStore.rows s
  | inl _ => []
  end.

End GraphEngine.

(* ===================================================================== *)
(** ** The manager the tools talk to                                    *)
(* ===================================================================== *)

(** The interface of class [MemoryManager] as the embedded tools use it.
    The class itself ([src/lib/MemoryManager.ts]) is missing, so its
    behaviour is a parameter: every method may change the world and may
    throw.
    - [getInstance] is [MemoryManager.getInstance()]: it yields the process
      singleton, opening and migrating the database on first use;
    - [mm_save k v c] is [memoryManager.save(k, v, c)];
    - [mm_recall k] is [memoryManager.recall(k)], [None] standing for the
      falsy result of a miss;
    - [mm_getMemoryGraph] is [memoryManager.getMemoryGraph()]. *)
Class MemoryManager (W : Type) := {
  getInstance : Eff W unit;
  mm_save : string -> string -> string -> Eff W unit;
  mm_recall : string -> Eff W (option MemoryRecord);
  mm_getMemoryGraph : Eff W MemoryGraph
}.

(* ===================================================================== *)
(** ** Tool definitions                                                 *)
(* ===================================================================== *)

(** One entry of [inputSchema.properties]: its [type], its [enum] when it
    has one, and for an array the [type] and [enum] of its [items].  The
    [description] texts and the [annotations] are left out. *)
Record PropertySchema := mkPropertySchema {
  prop_type : string;
  prop_enum : option (list string);
  prop_items : option (string * option (list string))
}.

Record InputSchema := mkInputSchema {
  properties : list (string * PropertySchema);
  required : list string
}.

Record ToolDefinition := mkToolDefinition {
  name : string;
  inputSchema : InputSchema
}.

(** The value of the first entry of an association list under a key: the
    properties of an object literal are looked up by name. *)
Fixpoint assoc {A} (k : string) (l : list (string * A)) : option A :=
  match l with
  | [] => None
  | (k', a) :: rest => if bool_decide (k' = k) then Some a else assoc k rest
  end.

Definition string_property : PropertySchema :=
  mkPropertySchema "string" None None.

Definition enum_property (values : list string) : PropertySchema :=
  mkPropertySchema "string" (Some values) None.

(* ===================================================================== *)
(** ** save_memory                                                      *)
(* ===================================================================== *)

Definition saveMemoryDefinition : ToolDefinition :=
  mkToolDefinition "save_memory"
    (mkInputSchema
       [("key", string_property);
        ("value", string_property);
        ("category", enum_property ["project"; "personal"; "code"; "notes"])]
       ["key"; "value"]).

(** [args: { key: string; value: string; category?: string }] *)
Record SaveMemoryArgs := mkSaveMemoryArgs {
  save_key : string;
  save_value : string;
  save_category : option string
}.

Definition saveMemory {W} `{MemoryManager W} (args : SaveMemoryArgs)
  : Eff W ToolResult :=
  let memoryKey := save_key args in
  let memoryValue := save_value args in
  let category := default "general" (save_category args) in
  try_catch
    (let* _ := getInstance in
     let* _ := mm_save memoryKey memoryValue category in
     ret (text_result ("✓ Saved: " +:+ memoryKey +:+ newline
                       +:+ "Category: " +:+ category)))
    (fun error =>
       ret (text_result ("✗ Error: " +:+ message_or_unknown error))).

(** [saveMemory(args)] as [index.ts] calls it, [handler(args)] with
    [args = request.params.arguments], which a request may omit: [args] is
    [None] for [undefined].  The destructuring of line 33 stands before the
    [try] of line 35, so on [undefined] it throws a [TypeError] that no
    [catch] of the function sees; [destructuring_message] is the engine's
    message for it.  An object that is given carries the [key] and [value]
    strings the schema requires. *)
Definition saveMemory_call {W} `{MemoryManager W}
    (destructuring_message : string) (args : option SaveMemoryArgs)
  : Eff W ToolResult :=
  match args with
  | None => throw (ErrorInstance TypeError destructuring_message)
  | Some a => saveMemory a
  end.

(** The values the declared schema of a tool allows for a property:
    [None] when the property is undeclared or has no [enum]. *)
Definition declared_enum (d : ToolDefinition) (property : string)
  : option (list string) :=
  match assoc property (properties (inputSchema d)) with
  | Some p => prop_enum p
  | None => None
  end.

(** A manager that only keeps a log of the [save] calls it receives, to
    observe what a tool passes to the store. *)
#[local] Instance recording_manager
  : MemoryManager (list (string * string * string)) := {|
  getInstance := ret tt;
  mm_save := fun k v c log => (log ++ [(k, v, c)], Returned tt);
  mm_recall := fun _ => ret None;
  mm_getMemoryGraph := ret (mkMemoryGraph [] [] [])
|}.

(** The [enum] that [saveMemoryDefinition] declares for [category]. *)
Definition category_enum : list string :=
  default [] (declared_enum saveMemoryDefinition "category").

(** The categories [saveMemory args] passes to the store, in call order. *)
Definition stored_categories (args : SaveMemoryArgs) : list string :=
  map snd (fst (saveMemory (H := recording_manager) args [])).

(* ===================================================================== *)
(** ** recall_memory                                                    *)
(* ===================================================================== *)

Definition recallMemoryDefinition : ToolDefinition :=
  mkToolDefinition "recall_memory"
    (mkInputSchema
       [("key", string_property); ("category", string_property)]
       ["key"]).

(** [args: { key: string; category?: string }] *)
Record RecallMemoryArgs := mkRecallMemoryArgs {
  recall_key : string;
  recall_category : option string
}.

(** The three renderings of [recallMemory]. *)
Definition found_text (memory : MemoryRecord) : string :=
  key memory +:+ ": " +:+ value memory +:+ newline
  +:+ "[" +:+ category memory +:+ "]".

Definition not_found_text (recallKey : string) : string :=
  "✗ Not found: " +:+ dquote +:+ recallKey +:+ dquote.

Definition error_text (error : Thrown) : string :=
  "✗ Error: " +:+ message_or_unknown error.

Definition recallMemory {W} `{MemoryManager W} (args : RecallMemoryArgs)
  : Eff W ToolResult :=
  let recallKey := recall_key args in
  try_catch
    (let* _ := getInstance in
     let* memory := mm_recall recallKey in
     match memory with
     | Some m => ret (text_result (found_text m))
     | None => ret (text_result (not_found_text recallKey))
     end)
    (fun error => ret (text_result (error_text error))).

(** What the manager answers to the recall that [recallMemory args]
    performs: the body of its [try] up to the test of [memory]. *)
Definition underlying_recall {W} `{MemoryManager W} (args : RecallMemoryArgs)
  : Eff W (option MemoryRecord) :=
  let* _ := getInstance in mm_recall (recall_key args).


(* ===================================================================== *)
(** ** Object.prototype                                                  *)
(* ===================================================================== *)

(** The string-keyed members of [Object.prototype], which every object
    literal inherits. *)
Inductive ObjectPrototypeMember :=
| op_constructor
| op_defineGetter | op_defineSetter | op_lookupGetter | op_lookupSetter
| op_hasOwnProperty | op_isPrototypeOf | op_propertyIsEnumerable
| op_toLocaleString | op_toString | op_valueOf
| op_proto.

Definition Object_prototype : list (string * ObjectPrototypeMember) :=
  [("constructor", op_constructor);
   ("__defineGetter__", op_defineGetter);
   ("__defineSetter__", op_defineSetter);
   ("__lookupGetter__", op_lookupGetter);
   ("__lookupSetter__", op_lookupSetter);
   ("hasOwnProperty", op_hasOwnProperty);
   ("isPrototypeOf", op_isPrototypeOf);
   ("propertyIsEnumerable", op_propertyIsEnumerable);
   ("toLocaleString", op_toLocaleString);
   ("toString", op_toString);
   ("valueOf", op_valueOf);
   ("__proto__", op_proto)].

(* ===================================================================== *)
(** ** get_usage_analytics: graph statistics                            *)
(* ===================================================================== *)

Module Analytics.

(** What a property of a counting object holds.  The objects are
    declared [Record<string, number>], but they are plain object literals:
    under a key that names a member of [Object.prototype] the first read
    finds the inherited member, and [member + 1] is the text of the member
    followed by ["1"]; every later round appends one more ["1"].
    [MemberText m ones] is the text of [m] followed by [ones] times
    ["1"]. *)
Inductive Counter :=
| Count (n : nat)
| MemberText (m : ObjectPrototypeMember) (ones : nat).

(** [obj[k] = (obj[k] || 0) + 1] on an object literal, given its own
    properties.
    - An own number is incremented, an own text gets one more ["1"].
    - With no own property the read goes to [Object.prototype]: a key it
      does not know reads [undefined] and the count starts at 1; an
      inherited member is truthy, so its text followed by ["1"] is stored
      as an own property.
    - The write to [__proto__] runs the setter of [Object.prototype], which
      ignores a value that is no object: no own property is created. *)
Definition bump (k : string) (counts : gmap string Counter)
  : gmap string Counter :=
  match counts !! k with
  | Some (Count n) => <[k := Count (S n)]> counts
  | Some (MemberText m ones) => <[k := MemberText m (S ones)]> counts
  | None =>
      match assoc k Object_prototype with
      | None => <[k := Count 1]> counts
      | Some op_proto => counts
      | Some m => <[k := MemberText m 1]> counts
      end
  end.

(** The operands of a division the code evaluates: [dividend / divisor]. *)
Record Division := mkDivision {
  dividend : nat;
  divisor : nat
}.

(** What [generateGraphStats] computes before it prints it.  The Markdown
    text itself (number formatting, [toFixed], the order of the sorted
    entries) is not modelled.
    - [relation_types] and [connection_count] are the two counting objects
      of the function, and [average_connections] the division
      [graph.edges.length * 2 / graph.nodes.length]: all three are [None]
      when the branch [graph.edges.length > 0] is not taken;
    - [cluster_details] lists, for each of the first five clusters, its
      size and its first five keys, when [graph.clusters.length > 0 &&
      detailed]. *)
Record GraphStats := mkGraphStats {
  node_count : nat;
  relationship_count : nat;
  cluster_count : nat;
  relation_types : option (gmap string Counter);
  average_connections : option Division;
  connection_count : option (gmap string Counter);
  cluster_details : option (list (nat * list string))
}.

Definition graph_stats (graph : MemoryGraph) (detailed : bool) : GraphStats :=
  let has_edges := (0 <? length (edges graph))%nat in
  mkGraphStats
    (length (nodes graph))
    (length (edges graph))
    (length (clusters graph))
    (if has_edges
     then Some (fold_left (fun acc edge => bump (relationType edge) acc)
                          (edges graph) ∅)
     else None)
    (if has_edges
     then Some (mkDivision (length (edges graph) * 2) (length (nodes graph)))
     else None)
    (if has_edges
     then Some (fold_left (fun acc edge =>
                             bump (targetKey edge) (bump (sourceKey edge) acc))
                          (edges graph) ∅)
     else None)
    (if (0 <? length (clusters graph))%nat && detailed
     then Some (map (fun c => (length c, take 5 c)) (take 5 (clusters graph)))
     else None).

(** [generateGraphStats(memoryManager, detailed)], up to printing. *)
Definition generateGraphStats {W} `{MemoryManager W} (detailed : bool)
  : Eff W GraphStats :=
  let* graph := mm_getMemoryGraph in
  ret (graph_stats graph detailed).

(** Each edge's [sourceKey] and [targetKey] appear in [graph.nodes]. *)
Definition edges_closed (graph : MemoryGraph) : Prop :=
  forall e, e ∈ edges graph ->
    sourceKey e ∈ nodes graph /\ targetKey e ∈ nodes graph.

End Analytics.

(* ===================================================================== *)
(** ** index.ts: registry, dispatch, entry point                        *)
(* ===================================================================== *)

Module Server.

(** The tool functions imported by [index.ts], one constructor per
    imported function. *)
Inductive ToolFn :=
| fn_getCurrentTime | fn_previewUiAscii
| fn_saveMemory | fn_recallMemory | fn_updateMemory | fn_deleteMemory
| fn_listMemories | fn_prioritizeMemory
| fn_linkMemories | fn_getMemoryGraph | fn_searchMemoriesAdvanced
| fn_createMemoryTimeline
| fn_getSessionContext
| fn_findSymbol | fn_findReferences | fn_analyzeDependencyGraph
| fn_getCodingGuide | fn_applyQualityRules | fn_validateCodeQuality
| fn_analyzeComplexity | fn_checkCouplingCohesion | fn_suggestImprovements
| fn_createThinkingChain | fn_analyzeProblem | fn_stepByStepAnalysis
| fn_formatAsPlan
| fn_generatePrd | fn_createUserStories | fn_analyzeRequirements
| fn_featureRoadmap
| fn_enhancePrompt | fn_analyzePrompt | fn_enhancePromptGemini
| fn_applyReasoningFramework
| fn_getUsageAnalytics.

(** What the environment of [index.ts] supplies.  [Args] is the type of the
    JSON object in [request.params.arguments].
    - [run_tool f args] is the call [f(args)] of an imported tool function
      (most of them are in files that are missing);
    - [missing_schema n] is the [inputSchema] of the definition named [n]
      when its file is missing;
    - [McpError_message code m] is the [message] property the SDK gives to
      [new McpError(code, m)];
    - [TypeError_message member args] is the engine's message for the
      [TypeError] raised when the inherited [member] is called on [args]. *)
Class Host (W Args : Type) := {
  run_tool : ToolFn -> option Args -> Eff W ToolResult;
  missing_schema : string -> InputSchema;
  McpError_message : ErrorCode -> string -> string;
  TypeError_message : ObjectPrototypeMember -> option Args -> string
}.

Section Registry.
Context {W Args : Type} `{Host W Args}.

(** Modelled from the spec: the definition files of the tools below are
    missing and the specification leaves the tool surface out of scope, so
    the [name] of each of these definitions is the one the repository's
    tool catalogue (README, "Complete Tool List") gives it; its
    [inputSchema] is [missing_schema]. *)
Definition missing_definition (n : string) : ToolDefinition :=
  mkToolDefinition n (missing_schema n).

Definition enhancePromptDefinition : ToolDefinition :=
  mkToolDefinition "enhance_prompt"
    (mkInputSchema
       [("prompt", string_property);
        ("context", string_property);
        ("enhancement_type",
         enum_property ["clarity"; "specificity"; "context"; "all"])]
       ["prompt"]).

Definition enhancePromptGeminiDefinition : ToolDefinition :=
  mkToolDefinition "enhance_prompt_gemini"
    (mkInputSchema
       [("prompt", string_property);
        ("agent_role", string_property);
        ("strategies",
         mkPropertySchema "array" None
           (Some ("string",
                  Some ["few-shot"; "output-format"; "context-placement";
                        "decomposition"; "parameters"])))]
       ["prompt"]).

Definition applyReasoningFrameworkDefinition : ToolDefinition :=
  mkToolDefinition "apply_reasoning_framework"
    (mkInputSchema
       [("problem", string_property);
        ("context", string_property);
        ("focus_steps", mkPropertySchema "array" None (Some ("number", None)))]
       ["problem"]).

Definition getUsageAnalyticsDefinition : ToolDefinition :=
  mkToolDefinition "get_usage_analytics"
    (mkInputSchema
       [("type", enum_property ["memory"; "graph"; "all"]);
        ("timeRange", enum_property ["1d"; "7d"; "30d"; "all"]);
        ("detailed", mkPropertySchema "boolean" None None)]
       []).

(** [const tools = [...]] *)
Definition tools : list ToolDefinition :=
  [ (* Core Utilities *)
    missing_definition "get_current_time";
    missing_definition "preview_ui_ascii";
    (* Memory Management - Basic *)
    saveMemoryDefinition;
    recallMemoryDefinition;
    missing_definition "update_memory";
    missing_definition "delete_memory";
    missing_definition "list_memories";
    missing_definition "prioritize_memory";
    (* Memory Management - Graph *)
    missing_definition "link_memories";
    missing_definition "get_memory_graph";
    missing_definition "search_memories_advanced";
    missing_definition "create_memory_timeline";
    (* Memory Management - Session Context *)
    missing_definition "get_session_context";
    (* Code Analysis *)
    missing_definition "find_symbol";
    missing_definition "find_references";
    missing_definition "analyze_dependency_graph";
    (* Code Quality *)
    missing_definition "get_coding_guide";
    missing_definition "apply_quality_rules";
    missing_definition "validate_code_quality";
    missing_definition "analyze_complexity";
    missing_definition "check_coupling_cohesion";
    missing_definition "suggest_improvements";
    (* Thinking & Planning *)
    missing_definition "create_thinking_chain";
    missing_definition "analyze_problem";
    missing_definition "step_by_step_analysis";
    missing_definition "format_as_plan";
    missing_definition "generate_prd";
    missing_definition "create_user_stories";
    missing_definition "analyze_requirements";
    missing_definition "feature_roadmap";
    (* Prompt Engineering *)
    enhancePromptDefinition;
    missing_definition "analyze_prompt";
    enhancePromptGeminiDefinition;
    (* Reasoning *)
    applyReasoningFrameworkDefinition;
    (* Analytics *)
    getUsageAnalyticsDefinition ].

(** [const toolHandlers: Record<string, ToolHandler> = {...}]: the own
    properties of the object literal, in source order. *)
Definition toolHandlers : list (string * ToolFn) :=
  [("get_current_time", fn_getCurrentTime);
   ("preview_ui_ascii", fn_previewUiAscii);
   ("save_memory", fn_saveMemory);
   ("recall_memory", fn_recallMemory);
   ("update_memory", fn_updateMemory);
   ("delete_memory", fn_deleteMemory);
   ("list_memories", fn_listMemories);
   ("prioritize_memory", fn_prioritizeMemory);
   ("link_memories", fn_linkMemories);
   ("get_memory_graph", fn_getMemoryGraph);
   ("search_memories_advanced", fn_searchMemoriesAdvanced);
   ("create_memory_timeline", fn_createMemoryTimeline);
   ("get_session_context", fn_getSessionContext);
   ("find_symbol", fn_findSymbol);
   ("find_references", fn_findReferences);
   ("analyze_dependency_graph", fn_analyzeDependencyGraph);
   ("get_coding_guide", fn_getCodingGuide);
   ("apply_quality_rules", fn_applyQualityRules);
   ("validate_code_quality", fn_validateCodeQuality);
   ("analyze_complexity", fn_analyzeComplexity);
   ("check_coupling_cohesion", fn_checkCouplingCohesion);
   ("suggest_improvements", fn_suggestImprovements);
   ("create_thinking_chain", fn_createThinkingChain);
   ("analyze_problem", fn_analyzeProblem);
   ("step_by_step_analysis", fn_stepByStepAnalysis);
   ("format_as_plan", fn_formatAsPlan);
   ("generate_prd", fn_generatePrd);
   ("create_user_stories", fn_createUserStories);
   ("analyze_requirements", fn_analyzeRequirements);
   ("feature_roadmap", fn_featureRoadmap);
   ("enhance_prompt", fn_enhancePrompt);
   ("analyze_prompt", fn_analyzePrompt);
   ("enhance_prompt_gemini", fn_enhancePromptGemini);
   ("apply_reasoning_framework", fn_applyReasoningFramework);
   ("get_usage_analytics", fn_getUsageAnalytics)].

(** The value of the property read [toolHandlers[name]]. *)
Inductive PropertyValue :=
| OwnHandler (f : ToolFn)
| Inherited (m : ObjectPrototypeMember).

(** [toolHandlers[name]]: an own property first, then the prototype chain
    of the object literal, which is [Object.prototype]; [None] is
    [undefined]. *)
Definition get_property (name : string) : option PropertyValue :=
  match assoc name toolHandlers with
  | Some f => Some (OwnHandler f)
  | None => Inherited <$> assoc name Object_prototype
  end.

(** What the [CallTool] handler can return. *)
Inductive HandlerValue :=
| ToolValue (r : ToolResult)
| ObjectValue (o : option Args)
| StringValue (s : string)
| BoolValue (b : bool).

(** The call [handler(args)] when [handler] is an inherited member: the
    receiver [this] is [undefined] and [args] the single argument.
    - [Object(args)] returns [args], or a new object for [undefined];
    - [Object.prototype.toString] answers for an undefined receiver;
    - [isPrototypeOf] returns [false] for an argument that is no object;
    - the others convert the undefined receiver to an object first, and the
      value of [__proto__] is [Object.prototype], which is no function:
      each raises a [TypeError]. *)
Definition call_inherited (m : ObjectPrototypeMember) (args : option Args)
  : Outcome HandlerValue :=
  match m, args with
  | op_constructor, _ => Returned (ObjectValue args)
  | op_toString, _ => Returned (StringValue "[object Undefined]")
  | op_isPrototypeOf, None => Returned (BoolValue false)
  | _, _ => Threw (ErrorInstance TypeError (TypeError_message m args))
  end.

(** [await handler(args)] *)
Definition call_handler (handler : PropertyValue) (args : option Args)
  : Eff W HandlerValue :=
  match handler with
  | OwnHandler f => let* r := run_tool f args in ret (ToolValue r)
  | Inherited m => fun w => (w, call_inherited m args)
  end.

(** [new McpError(code, message)] *)
Definition new_McpError (code : ErrorCode) (message : string) : Thrown :=
  ErrorInstance (McpError code) (McpError_message code message).

(** [request.params] of a [CallTool] request. *)
Record CallToolRequest := mkCallToolRequest {
  req_name : string;
  req_arguments : option Args
}.

(** The handler registered for [CallToolRequestSchema]. *)
Definition callTool (request : CallToolRequest) : Eff W HandlerValue :=
  let name := req_name request in
  let args := req_arguments request in
  try_catch
    (match get_property name with
     | None => throw (new_McpError MethodNotFound ("Unknown tool: " +:+ name))
     | Some handler => call_handler handler args
     end)
    (fun error =>
       if instanceof_McpError error then throw error
       else throw (new_McpError InternalError
                     ("Tool execution failed: " +:+ message_or_unknown error))).

(** The server [createServer] builds: its identity, what [ListTools]
    answers, the [CallTool] handler, and the names of the prompts and the
    URIs of the resources it lists.  The texts served by the [GetPrompt] and
    [ReadResource] handlers are not modelled; like the rest, they are built
    by [createServer] from no argument. *)
Record McpServer := mkMcpServer {
  server_name : string;
  server_version : string;
  listTools : list ToolDefinition;
  callToolHandler : CallToolRequest -> Eff W HandlerValue;
  listPrompts : list string;
  listResources : list string
}.

Definition createServer (_ : unit) : McpServer :=
  mkMcpServer "Op-AI" "3.0.0" tools callTool
    ["code-review"; "problem-solver"; "project-kickoff"]
    ["hi-ai://context/session"; "hi-ai://guides/quality-rules";
     "hi-ai://guides/naming-conventions"; "hi-ai://info/capabilities"].

(** A session configuration as the entry point receives it:
    [Partial<z.infer<typeof configSchema>>]. *)
Record Config := mkConfig {
  maxMemories : option Q;
  enableGraph : option bool
}.

(** [configSchema]: [maxMemories] is a number from 10 to 1000, 100 when
    absent; [enableGraph] a boolean, [true] when absent.  [Some] holds the
    parsed configuration, [None] is a rejection. *)
Definition configSchema (c : Config) : option (Q * bool) :=
  let m := default 100%Q (maxMemories c) in
  if Qle_bool 10 m && Qle_bool m 1000
  then Some (m, default true (enableGraph c))
  else None.

(** A configuration that [configSchema] accepts. *)
Definition config_accepted (c : Config) : Prop := is_Some (configSchema c).

(** [{ sessionId, config }], the argument of the default export. *)
Record SessionArgs := mkSessionArgs {
  sessionId : string;
  config : option Config
}.

(** [export default function({ sessionId, config })] *)
Definition default_export (a : SessionArgs) : McpServer :=
  let _ := sessionId a in
  let _ := config a in
  createServer tt.

End Registry.

(** A host with no tool behind the registry: every tool function returns
    an empty result.  It serves to run the dispatch on concrete requests. *)
#[local] Instance idle_host : Host unit unit := {|
  run_tool := fun _ _ => ret (mkToolResult []);
  missing_schema := fun _ => mkInputSchema [] [];
  McpError_message := fun _ m => m;
  TypeError_message := fun _ _ => "TypeError"
|}.

End Server.

(* ===================================================================== *)
(** ** Strings of the template literals                                  *)
(* ===================================================================== *)

Module Text.

(** [ls.join('\n')]; a multi-line template literal is the join of its
    lines. *)
Definition lines (ls : list string) : string := String.concat newline ls.

(** [x || d] for [x] a string or [undefined]: the empty string is falsy. *)
Definition or_else (x : option string) (d : string) : string :=
  match x with
  | Some s => if bool_decide (s = EmptyString) then d else s
  | None => d
  end.

(** The truthiness of a string or [undefined], as [x ? a : b] tests it. *)
Definition truthy (x : option string) : bool :=
  match x with
  | Some s => negb (bool_decide (s = EmptyString))
  | None => false
  end.

(** [hay.includes(needle)] *)
Fixpoint includes (needle hay : string) : bool :=
  String.prefix needle hay
  || match hay with
     | EmptyString => false
     | String _ rest => includes needle rest
     end.

End Text.

(* ===================================================================== *)
(** ** index.ts: prompts                                                 *)
(* ===================================================================== *)

Module Prompts.

Import Text.

(** One entry of the [arguments] of a prompt. *)
Record PromptArgument := mkPromptArgument {
  arg_name : string;
  arg_description : string;
  arg_required : bool
}.

Record Prompt := mkPrompt {
  prompt_name : string;
  prompt_description : string;
  prompt_arguments : list PromptArgument
}.

(** [const prompts = [...]] of [createServer], what [ListPrompts]
    answers. *)
Definition prompts : list Prompt :=
  [mkPrompt "code-review"
     "Comprehensive code review with quality analysis"
     [mkPromptArgument "code" "Code to review" true;
      mkPromptArgument "language" "Programming language" false];
   mkPrompt "problem-solver"
     "Step-by-step problem analysis and solution planning"
     [mkPromptArgument "problem" "Problem description" true;
      mkPromptArgument "context" "Additional context" false];
   mkPrompt "project-kickoff"
     "Start a new project with PRD, user stories, and roadmap"
     [mkPromptArgument "projectName" "Name of the project" true;
      mkPromptArgument "vision" "Project vision and goals" true]].

(** [{ role, content: { type, text } }] *)
Record PromptMessage := mkPromptMessage {
  role : string;
  message_content : ContentItem
}.

Record GetPromptResult := mkGetPromptResult {
  messages : list PromptMessage
}.

(** [{ messages: [{ role: 'user', content: { type: 'text', text: t } }] }] *)
Definition user_message (t : string) : GetPromptResult :=
  mkGetPromptResult [mkPromptMessage "user" (mkContentItem "text" t)].

(** [args?.k]: [request.params.arguments] is an object of strings, or
    [undefined]. *)
Definition argument (args : option (gmap string string)) (k : string)
  : option string :=
  match args with
  | Some o => o !! k
  | None => None
  end.

Section Handler.
Context {W Args : Type} `{Server.Host W Args}.

(** The handler registered for [GetPromptRequestSchema]: a [switch] on
    the name. *)
Definition getPrompt (name : string) (args : option (gmap string string))
  : Outcome GetPromptResult :=
  if bool_decide (name = "code-review") then
    Returned (user_message (lines
      ["Please perform a comprehensive code review for the following code:";
       EmptyString;
       or_else (argument args "code") EmptyString;
       EmptyString;
       "Analyze for:";
       "1. Code quality and best practices";
       "2. Complexity and maintainability";
       "3. Potential improvements";
       "4. Security considerations"]))
  else if bool_decide (name = "problem-solver") then
    Returned (user_message (lines
      ["I need help solving this problem:";
       EmptyString;
       or_else (argument args "problem") EmptyString;
       EmptyString;
       "Context: " +:+ or_else (argument args "context") "None provided";
       EmptyString;
       "Please:";
       "1. Break down the problem into sub-problems";
       "2. Analyze each component step-by-step";
       "3. Propose a structured solution plan"]))
  else if bool_decide (name = "project-kickoff") then
    Returned (user_message (lines
      ["Let's kick off a new project:";
       EmptyString;
       "Project Name: "
         +:+ or_else (argument args "projectName") "Unnamed Project";
       "Vision: " +:+ or_else (argument args "vision") EmptyString;
       EmptyString;
       "Please help me create:";
       "1. A Product Requirements Document (PRD)";
       "2. User stories with acceptance criteria";
       "3. A development roadmap"]))
  else
    Threw (Server.new_McpError InvalidRequest ("Unknown prompt: " +:+ name)).

End Handler.

End Prompts.

(* ===================================================================== *)
(** ** index.ts: resources                                               *)
(* ===================================================================== *)

Module Resources.

Import Text.

(** [{ uri, mimeType, text }] *)
Record ResourceContents := mkResourceContents {
  rc_uri : string;
  rc_mimeType : string;
  rc_text : string
}.

Record ReadResourceResult := mkReadResourceResult {
  contents : list ResourceContents
}.

(** [{ contents: [{ uri, mimeType: 'text/plain', text: t }] }] *)
Definition plain_text (uri t : string) : ReadResourceResult :=
  mkReadResourceResult [mkResourceContents uri "text/plain" t].

(** The text served for [hi-ai://guides/quality-rules]. *)
Definition quality_rules_text : string :=
  lines
    ["# Code Quality Rules";
     EmptyString;
     "## Complexity";
     "- Max Cyclomatic Complexity: 10";
     "- Max Cognitive Complexity: 15";
     "- Max Function Lines: 20";
     "- Max Nesting Depth: 3";
     "- Max Parameters: 5";
     EmptyString;
     "## Coupling";
     "- Max Dependencies: 7";
     "- Max Fan-Out: 5";
     "- Prevent Circular Dependencies";
     EmptyString;
     "## Maintainability";
     "- No Magic Numbers";
     "- Consistent Naming";
     "- Proper Error Handling";
     "- Type Safety"].

(** The text served for [hi-ai://guides/naming-conventions]. *)
Definition naming_conventions_text : string :=
  lines
    ["# Naming Conventions";
     EmptyString;
     "## Variables";
     "- Use nouns: userList, userData";
     EmptyString;
     "## Functions";
     "- Use verb+noun: fetchData, updateUser";
     EmptyString;
     "## Event Handlers";
     "- Use handle prefix: handleClick, handleSubmit";
     EmptyString;
     "## Booleans";
     "- Use is/has/can prefix: isLoading, hasError, canEdit";
     EmptyString;
     "## Constants";
     "- Use UPPER_SNAKE_CASE: MAX_RETRY_COUNT, API_TIMEOUT";
     EmptyString;
     "## Components";
     "- Use PascalCase: UserProfile, HeaderSection";
     EmptyString;
     "## Hooks";
     "- Use use prefix: useUserData, useAuth"].

(** The text served for [hi-ai://info/capabilities]. *)
Definition capabilities_text : string :=
  lines
    ["# Hi-AI Capabilities (v2.1)";
     EmptyString;
     "## Tool Categories (35 tools)";
     EmptyString;
     "### Time Utilities (1)";
     "- get_current_time";
     EmptyString;
     "### Semantic Code Analysis (3)";
     "- find_symbol, find_references, analyze_dependency_graph";
     EmptyString;
     "### Sequential Thinking (4)";
     "- create_thinking_chain, analyze_problem";
     "- step_by_step_analysis, format_as_plan";
     EmptyString;
     "### Memory Management - Basic (6)";
     "- save_memory, recall_memory, list_memories";
     "- delete_memory, update_memory, prioritize_memory";
     EmptyString;
     "### Memory Management - Graph (4)";
     "- link_memories, get_memory_graph";
     "- search_memories_advanced, create_memory_timeline";
     EmptyString;
     "### Memory Management - Session (1) [v2.1 NEW]";
     "- get_session_context ðŸš€ Recommended for auto-execution on session start";
     EmptyString;
     "### Code Quality (6)";
     "- get_coding_guide, apply_quality_rules";
     "- validate_code_quality, analyze_complexity";
     "- check_coupling_cohesion, suggest_improvements";
     EmptyString;
     "### Project Planning (4)";
     "- generate_prd, create_user_stories";
     "- analyze_requirements, feature_roadmap";
     EmptyString;
     "### Prompt Enhancement (3)";
     "- enhance_prompt, analyze_prompt, enhance_prompt_gemini";
     EmptyString;
     "### Reasoning (1)";
     "- apply_reasoning_framework";
     EmptyString;
     "### Analytics (1)";
     "- get_usage_analytics";
     EmptyString;
     "### UI Preview (1)";
     "- preview_ui_ascii";
     EmptyString;
     "## Resources (4)";
     "- hi-ai://context/session - ðŸ§  Auto-load session context";
     "- hi-ai://guides/quality-rules - Code quality rules";
     "- hi-ai://guides/naming-conventions - Naming conventions";
     "- hi-ai://info/capabilities - Feature overview"].

(** The body of the [try] of the session-context resource: it asks the
    manager for its statistics, its first memories and its graph and
    prints them.  The printing (numbers, previews cut at 100 UTF-16 units)
    is not modelled: the text is a parameter, a computation that may change
    the world and may throw. *)
Class SessionContext (W : Type) := {
  session_context_markdown : Eff W string
}.

Section Handler.
Context {W Args : Type} `{Server.Host W Args} `{SessionContext W}.

(** The handler registered for [ReadResourceRequestSchema]: a [switch]
    on the URI. *)
Definition readResource (uri : string) : Eff W ReadResourceResult :=
  if bool_decide (uri = "hi-ai://context/session") then
    try_catch
      (let* contextText := session_context_markdown in
       ret (plain_text uri contextText))
      (fun error =>
         ret (plain_text uri
                (lines ["# Session Context";
                        EmptyString;
                        "_Cannot load memories: "
                          +:+ message_or_unknown error +:+ "_"])))
  else if bool_decide (uri = "hi-ai://guides/quality-rules") then
    ret (plain_text uri quality_rules_text)
  else if bool_decide (uri = "hi-ai://guides/naming-conventions") then
    ret (plain_text uri naming_conventions_text)
  else if bool_decide (uri = "hi-ai://info/capabilities") then
    ret (plain_text uri capabilities_text)
  else
    throw (Server.new_McpError InvalidRequest ("Unknown resource: " +:+ uri)).

End Handler.

End Resources.

(* ===================================================================== *)
(** ** get_usage_analytics: time ranges and the tool function            *)
(* ===================================================================== *)

Module UsageAnalytics.

Import Text.

(** The sum of the numbers a counting object holds. *)
Definition total (counts : gmap string Analytics.Counter) : nat :=
  map_fold (fun _ v acc =>
              match v with
              | Analytics.Count n => (n + acc)%nat
              | Analytics.MemberText _ _ => acc
              end) 0%nat counts.

(** What an entry adds to the sum of the numbers. *)
Definition weight (v : option Analytics.Counter) : nat :=
  match v with
  | Some (Analytics.Count n) => n
  | _ => 0%nat
  end.

(** A key that names no member of [Object.prototype]. *)
Definition plain_key (k : string) : bool :=
  match assoc k Object_prototype with
  | None => true
  | Some _ => false
  end.

(** The keys of a list that are plain. *)
Definition plain_keys (keys : list string) : list string :=
  filter (fun k => plain_key k = true) keys.

(** The two ends of every edge, in the order the loop counts them. *)
Definition edge_ends (es : list MemoryRelation) : list string :=
  flat_map (fun e => [sourceKey e; targetKey e]) es.

(** The entry a counting object holds for a key counted [c] times: none
    when the key was never counted or is [__proto__], a number for a plain
    key, and a text for the name of another inherited member. *)
Definition tally (k : string) (c : nat) : option Analytics.Counter :=
  if (c =? 0)%nat then None
  else match assoc k Object_prototype with
       | None => Some (Analytics.Count c)
       | Some op_proto => None
       | Some m => Some (Analytics.MemberText m c)
       end.

(** Counting the keys of a list one after the other, as the loops of
    [generateGraphStats] do. *)
Definition count_all (keys : list string)
    (counts : gmap string Analytics.Counter) : gmap string Analytics.Counter :=
  fold_left (fun acc k => Analytics.bump k acc) keys counts.

(** The number of edges of relation type [t]. *)
Definition edges_of_type (es : list MemoryRelation) (t : string) : nat :=
  length (filter (fun e => relationType e = t) es).

(** The number of edge ends at [k]: an edge from [k] to [k] counts
    twice. *)
Definition degree (es : list MemoryRelation) (k : string) : nat :=
  (length (filter (fun e => sourceKey e = k) es)
   + length (filter (fun e => targetKey e = k) es))%nat.

(** [getFilterDate(timeRange)], with [now] the reading of [new Date()]
    in milliseconds; [None] is [null]. *)
Definition getFilterDate (now : Timestamp) (timeRange : string)
  : option Timestamp :=
  if bool_decide (timeRange = "1d") then Some (now - 24 * 60 * 60 * 1000)%Z
  else if bool_decide (timeRange = "7d")
  then Some (now - 7 * 24 * 60 * 60 * 1000)%Z
  else if bool_decide (timeRange = "30d")
  then Some (now - 30 * 24 * 60 * 60 * 1000)%Z
  else None.

(** [getTimeRangeLabel(timeRange)] *)
Definition getTimeRangeLabel (timeRange : string) : string :=
  if bool_decide (timeRange = "1d") then "Last 24 hours"
  else if bool_decide (timeRange = "7d") then "Last 7 days"
  else if bool_decide (timeRange = "30d") then "Last 30 days"
  else "All time".

(** [recentMemories] of [generateMemoryStats]: the memories the daily
    activity is counted over. *)
Definition recentMemories (now : Timestamp) (timeRange : string)
    (allMemories : list MemoryRecord) : list MemoryRecord :=
  match getFilterDate now timeRange with
  | Some filterDate =>
      filter (fun m => (filterDate <= timestamp m)%Z) allMemories
  | None => allMemories
  end.

(** [args: GetUsageAnalyticsArgs] *)
Record GetUsageAnalyticsArgs := mkGetUsageAnalyticsArgs {
  ua_type : option string;
  ua_timeRange : option string;
  ua_detailed : option bool
}.

(** What [getUsageAnalytics] prints through code that is not modelled as
    text (number and date formatting):
    - [generateMemoryStats_markdown timeRange detailed] is the call
      [generateMemoryStats(memoryManager, timeRange, detailed)];
    - [graph_markdown graph detailed] is the text [generateGraphStats]
      builds from the graph it fetched;
    - [toLocaleString_now] is [new Date().toLocaleString('en-US')];
    - [destructuring_message] is the engine's message for the [TypeError]
      of destructuring [undefined]. *)
Class Printer (W : Type) := {
  generateMemoryStats_markdown : string -> bool -> Eff W string;
  graph_markdown : MemoryGraph -> bool -> string;
  toLocaleString_now : Eff W string;
  destructuring_message : string
}.

Section Tool.
Context {W : Type} `{MemoryManager W} `{Printer W}.

(** [generateGraphStats(memoryManager, detailed)] as text. *)
Definition generateGraphStats_markdown (detailed : bool) : Eff W string :=
  let* graph := mm_getMemoryGraph in
  ret (graph_markdown graph detailed).

(** [getUsageAnalytics(args)]; [args] is [None] when the request carries
    no arguments.  The destructuring is inside the [try]. *)
Definition getUsageAnalytics (args : option GetUsageAnalyticsArgs)
  : Eff W ToolResult :=
  try_catch
    (match args with
     | None => throw (ErrorInstance TypeError destructuring_message)
     | Some a =>
         let type := default "all" (ua_type a) in
         let timeRange := default "all" (ua_timeRange a) in
         let detailed := default false (ua_detailed a) in
         let* _ := getInstance in
         let output := "## Hi-AI Usage Analytics" +:+ newline +:+ newline in
         let* output :=
           if bool_decide (type = "memory") || bool_decide (type = "all")
           then (let* s := generateMemoryStats_markdown timeRange detailed in
                 ret (output +:+ s))
           else ret output in
         let* output :=
           if bool_decide (type = "graph") || bool_decide (type = "all")
           then (let* s := generateGraphStats_markdown detailed in
                 ret (output +:+ s))
           else ret output in
         let* analysisTime := toLocaleString_now in
         ret (text_result
                (output
                 +:+ lines ["---";
                            "### System Information";
                            EmptyString;
                            "- **Hi-AI Version**: 2.0.0";
                            "- **Analysis Time**: " +:+ analysisTime;
                            "- **Time Range**: " +:+ getTimeRangeLabel timeRange;
                            EmptyString]))
     end)
    (fun error =>
       ret (text_result ("✗ Analysis error: " +:+ message_or_unknown error))).

End Tool.

End UsageAnalytics.

(* ===================================================================== *)
(** ** apply_reasoning_framework                                         *)
(* ===================================================================== *)

Module Reasoning.

Import Text.

(** What the JavaScript engine supplies: [s.toLowerCase()], the Unicode
    lower-casing of a string. *)
Class Engine := {
  toLowerCase : string -> string
}.

Record ReasoningStep := mkReasoningStep {
  step : nat;
  title : string;
  description : string;
  questions : list string;
  output : string
}.

Definition analyzeConstraints (problem : string) (context : option string) : string :=
  lines
    ["**Constraint Analysis**:";
     "- Policies/Rules: " +:+ (if truthy context then "Project context verification required"
        else "CLAUDE.md, constitution.md verification required");
     "- Task Order: Predecessor task identification required (consider DB → Backend → Frontend pattern)";
     "- Prerequisites: Verify essential information/tools for " +:+ problem;
     "- User Constraints: Apply explicit requirements first"].

Definition assessRisks `{Engine} (problem : string) (context : option string) : string :=
  let isExploration :=
    includes "find" (toLowerCase problem)
    || includes "analyze" (toLowerCase problem)
    || includes "check" (toLowerCase problem)
    || includes "find" (toLowerCase problem)
    || includes "analyze" (toLowerCase problem) in
  lines
    ["**Risk Assessment**:";
     "- Task Type: " +:+ (if isExploration then "Exploration task (low risk)"
        else "Implementation task (high risk)");
     "- Rollback Possibility: " +:+ (if isExploration then "High" else "Verification required");
     "- Compatibility Risk: Review potential conflicts with existing code";
     "- Security Risk: Review SQL Injection, XSS, sensitive information exposure";
     "- Performance Risk: Review N+1 queries, memory leaks, unnecessary re-renders"].

Definition generateHypotheses (problem : string) (context : option string) : string :=
  lines
    ["**Hypothesis Generation**:";
     "1. **Hypothesis 1** (Probability: High)";
     "   - Evidence: Most direct cause of " +:+ problem;
     "   - Verification: Confirm through [tool/file]";
     "2. **Hypothesis 2** (Probability: Medium)";
     "   - Evidence: Indirect factors or environmental differences";
     "   - Verification: Additional information collection required";
     "3. **Hypothesis 3** (Probability: Low)";
     "   - Evidence: Edge cases or rare situations";
     "   - Verification: Review if other hypotheses are disproven";
     EmptyString;
     "**Priority**: Verify in order of probability, but don't completely exclude low probability options"].

Definition evaluateAdaptability (problem : string) (context : option string) : string :=
  lines
    ["**Adaptability Assessment**:";
     "- Reflect observation results: Check if plan needs modification based on new information";
     "- Hypothesis updates: Discard disproven hypotheses, generate new ones";
     "- Backtracking: Return to previous steps when reaching dead ends to explore different paths";
     "- Plan re-evaluation: Periodically review if overall approach is still valid"].

Definition identifyInformationSources (problem : string) (context : option string) : string :=
  lines
    ["**Information Sources**:";
     "1. **Tools**:";
     "   - MCP tools (hi-ai 38 tools)";
     "   - File system (Read, Write, Edit, Glob, Grep)";
     "   - Git, package managers";
     "2. **Policies/Rules**:";
     "   - CLAUDE.md (tech stack, architecture)";
     "   - .vibe/constitution.md (project rules)";
     "   - skills/ folder (quality standards, coding conventions)";
     "3. **Memory**:";
     "   - recall_memory (previous session information)";
     "   - restore_session_context (context restoration)";
     "4. **User Confirmation**:";
     "   - Business logic details";
     "   - Design preferences";
     "   - Priority decisions"].

Definition ensurePrecision (problem : string) (context : option string) : string :=
  lines
    ["**Precision Assurance**:";
     "- Policy citations: Explicitly state " +:+ dquote +:+ "According to CLAUDE.md:12..." +:+ dquote;
     "- Code references: Include file:line format like " +:+ dquote +:+ "User model in users.py:45" +:+ dquote;
     "- Numeric accuracy: Express complexity, coverage, performance metrics with exact figures";
     "- Evidence presentation: Clearly state sources and evidence for all claims"].

Definition ensureCompleteness (problem : string) (context : option string) : string :=
  lines
    ["**Completeness Assurance**:";
     "- Conflict resolution: Policy → Task order → Prerequisites → User preferences priority order";
     "- Option exploration: Don't fixate on single solution early, review multiple alternatives";
     "- Information review: Thoroughly review all relevant information sources (#5)";
     "- User confirmation: Don't assume uncertain parts, confirm instead"].

Definition demonstratePersistence (problem : string) (context : option string) : string :=
  lines
    ["**Persistence Strategy**:";
     "- Temporary errors: Retry with exponential backoff (e.g., 1s, 2s, 4s...)";
     "- Limit recognition: Set clear retry limits, stop when timeout reached";
     "- Strategy changes: Don't repeat same failures → Try different approaches";
     "- Thorough analysis: Complete all reasoning steps even if time-consuming"].

Definition planExecution (problem : string) (context : option string) : string :=
  lines
    ["**Execution Plan**:";
     "1. **Document reasoning**: Briefly explain reasoning process for complex decisions";
     "2. **Step-by-step execution**: Perform only one major action at a time";
     "3. **Result verification**: Confirm results of each action before proceeding to next step";
     "4. **Rollback preparation**: Prepare to restore to previous state if issues occur"].

Definition allSteps `{Engine} (problem : string) (context : option string)
  : list ReasoningStep :=
  [mkReasoningStep 1
      "Logical Dependencies and Constraints"
      "Analyze policies, task order, prerequisites, and user constraints in order of importance"
      ["What policies or mandatory rules apply?";
        "Does the task order need to be rearranged? (Check predecessor tasks)";
        "What prerequisites or information are needed?";
        "Are there explicit user constraints?"]
      (analyzeConstraints problem context);
   mkReasoningStep 2
      "Risk Assessment"
      "Evaluate the consequences of actions and potential future problems"
      ["Could this action cause problems in the future?";
        "Is this an exploration task or implementation task? (Determine risk level)";
        "What are compatibility, security, and performance risks?";
        "Is rollback possible?"]
      (assessRisks problem context);
   mkReasoningStep 3
      "Inductive Reasoning and Hypothesis Exploration"
      "Generate hypotheses about the root cause of the problem and prioritize them"
      ["What is the root cause beyond the immediate symptoms?";
        "How will each hypothesis be verified?";
        "Have low-probability causes been considered?"]
      (generateHypotheses problem context);
   mkReasoningStep 4
      "Result Evaluation and Adaptability"
      "Adjust plans based on observation results"
      ["Do previous observations require plan modifications?";
        "Have disproven hypotheses been discarded and new ones generated?";
        "Is backtracking needed when reaching dead ends?"]
      (evaluateAdaptability problem context);
   mkReasoningStep 5
      "Information Availability"
      "Identify and utilize all information sources"
      ["What tools are available? (MCP tools, file system, Git, etc.)";
        "What policy/rule documents need to be referenced? (CLAUDE.md, constitution.md)";
        "Have relevant information been found in previous conversations or memory?";
        "What information should be asked from users?"]
      (identifyInformationSources problem context);
   mkReasoningStep 6
      "Precision and Evidence"
      "Provide accurate evidence for claims"
      ["Have policies been cited accurately?";
        "Have code references included file:line format?";
        "Are numbers and metrics accurate?"]
      (ensurePrecision problem context);
   mkReasoningStep 7
      "Completeness"
      "Integrate all requirements, options, and preferences"
      ["Have conflicting requirements been resolved by importance order?";
        "Have multiple options been considered without early fixation?";
        "Have all relevant information sources been reviewed?"]
      (ensureCompleteness problem context);
   mkReasoningStep 8
      "Persistence and Perseverance"
      "Continue until all reasoning is exhausted"
      ["Have temporary errors been retried?";
        "Have clear limits been reached (retry limits, timeouts)?";
        "Have strategies been changed without repeating same failures?"]
      (demonstratePersistence problem context);
   mkReasoningStep 9
      "Response Suppression"
      "Only respond after reasoning is complete"
      ["Has all reasoning above been completed?";
        "Has the reasoning process been documented?";
        "Is only one major action performed at a time?"]
      (planExecution problem context)].

Definition generateSummary (problem : string) (steps : list ReasoningStep)
  : string :=
  lines
    ["Applied 9-step reasoning framework to " +:+ dquote +:+ problem +:+ dquote +:+ ".";
     "Systematically analyzed " +:+ pretty (length steps) +:+ " steps to comprehensively review logical dependencies, risks, hypotheses, and information sources."].

(** [args: { problem, context?, focus_steps? }]; the numbers of
    [focus_steps] are rationals, as every finite JavaScript number is. *)
Record Args := mkArgs {
  problem : string;
  context : option string;
  focus_steps : option (list Q)
}.

(** [focus_steps.includes(n)] for a step number [n]. *)
Definition focus_includes (focus : list Q) (n : nat) : bool :=
  existsb (fun f => Qeq_bool f (inject_Z (Z.of_nat n))) focus.

(** [const stepsToApply = focus_steps && focus_steps.length > 0
      ? allSteps.filter(s => focus_steps.includes(s.step)) : allSteps] *)
Definition stepsToApply `{Engine} (args : Args) : list ReasoningStep :=
  match focus_steps args with
  | Some (f :: fs) =>
      filter (fun s => focus_includes (f :: fs) (step s) = true)
             (allSteps (problem args) (context args))
  | _ => allSteps (problem args) (context args)
  end.

(** The part of [formatOutput] printed for one step. *)
Definition format_step (s : ReasoningStep) : string :=
  "## " +:+ pretty (step s) +:+ ". " +:+ title s +:+ newline +:+ newline
  +:+ description s +:+ newline +:+ newline
  +:+ "**Key Questions**:" +:+ newline
  +:+ String.concat EmptyString
        (map (fun q => "- " +:+ q +:+ newline) (questions s))
  +:+ newline +:+ output s +:+ newline +:+ newline
  +:+ "---" +:+ newline +:+ newline.

(** [formatOutput(result)] for [result = { problem, context,
    steps_applied, framework_steps, summary }]. *)
Definition formatOutput (problem context : string) (steps_applied : nat)
    (framework_steps : list ReasoningStep) (summary : string) : string :=
  "# Reasoning Framework Analysis" +:+ newline +:+ newline
  +:+ "**Problem**: " +:+ problem +:+ newline
  +:+ "**Context**: " +:+ context +:+ newline
  +:+ "**Applied Steps**: " +:+ pretty steps_applied +:+ "/9"
  +:+ newline +:+ newline
  +:+ "---" +:+ newline +:+ newline
  +:+ String.concat EmptyString (map format_step framework_steps)
  +:+ "## Summary" +:+ newline +:+ newline +:+ summary.

Definition applyReasoningFramework `{Engine} (args : Args) : ToolResult :=
  let steps := stepsToApply args in
  text_result
    (formatOutput (problem args)
       (or_else (context args) "No additional context provided")
       (length steps) steps
       (generateSummary (problem args) steps)).

End Reasoning.

(* ===================================================================== *)
(** ** Proof tools                                                       *)
(* ===================================================================== *)

(** Decide the tests of a [switch] on a string once the scrutinee is
    known to be, or known not to be, each of the labels. *)
Ltac switch_tests :=
  repeat first
    [ rewrite bool_decide_eq_true_2
        by (first [reflexivity | rewrite !elem_of_cons; auto 6])
    | rewrite bool_decide_eq_false_2
        by (first [done | rewrite !elem_of_cons, elem_of_nil; tauto]) ].

(* ===================================================================== *)
(** * Part II: theorems                                                 *)
(* ===================================================================== *)

(* ===================================================================== *)
(** ** Record Store                                                     *)
(* ===================================================================== *)

Section RecordStoreFacts.
Import RecordStore.
Implicit Types (s : gmap string MemoryRecord) (k v c : string).
Implicit Types (now : Timestamp).

(** What [save] leaves under the key it wrote. *)
Lemma save_lookup now k v c s :
  save now k v c s !! k =
    Some (mkMemoryRecord k v c
            (from_option timestamp now (s !! k)) now
            (from_option priority 0%Z (s !! k))).
Proof.
  unfold save. destruct (s !! k) as [old|]; simpl;
    by rewrite lookup_insert_eq.
Qed.

(** [save] touches no other key. *)
Lemma save_lookup_ne now k k' v c s :
  k ≠ k' -> save now k v c s !! k' = s !! k'.
Proof.
  intros Hne. unfold save.
  destruct (s !! k); by rewrite lookup_insert_ne.
Qed.

(** A recall answers with the row stored under the key. *)
Lemma recall_result now k s : (recall now k s).2 = s !! k.
Proof. unfold recall. by destruct (s !! k). Qed.

(** A recall only refreshes [lastAccessed]. *)
Lemma recall_store now k s r :
  s !! k = Some r ->
  (recall now k s).1 !! k =
    Some (mkMemoryRecord (key r) (value r) (category r) (timestamp r) now
                         (priority r)).
Proof.
  intros Hr. unfold recall. rewrite Hr. simpl. by rewrite lookup_insert_eq.
Qed.

(** C1.  Round trip of save then recall: for every store, key [k], value
    [v] and category [c], whatever the clock reads at the two calls,
    recalling [k] right after [save k v c] returns a record whose value is
    [v] and whose category is [c] (and whose key is [k]). *)
Theorem save_recall_roundtrip s k v c (t_save t_recall : Timestamp) :
  exists r,
    (recall t_recall k (save t_save k v c s)).2 = Some r /\
    value r = v /\ category r = c /\ key r = k.
Proof.
  rewrite recall_result, save_lookup.
  eexists. split; [reflexivity|]. simpl. auto.
Qed.

(** C5.  Re-save leaves the creation timestamp unchanged: when the store
    holds a record [r] under [k], [save k v' c'] at time [now] leaves under
    [k] a record with the timestamp of [r], the new value and category, and
    [lastAccessed = now]. *)
Theorem resave_preserves_timestamp s k r v' c' now :
  s !! k = Some r ->
  exists r',
    save now k v' c' s !! k = Some r' /\
    timestamp r' = timestamp r /\
    value r' = v' /\ category r' = c' /\ lastAccessed r' = now.
Proof.
  intros Hr. rewrite save_lookup, Hr. simpl.
  eexists. split; [reflexivity|]. simpl. auto.
Qed.

End RecordStoreFacts.

(** A record created at time 5 and saved again at time 9. *)
Lemma resave_preserves_timestamp_witness :
  exists r',
    RecordStore.save 9 "k" "new" "code"
      (RecordStore.save 5 "k" "old" "notes" ∅) !! "k" = Some r' /\
    timestamp r' = 5%Z /\
    value r' = "new" /\ category r' = "code" /\ lastAccessed r' = 9%Z.
Proof.
  pose proof (resave_preserves_timestamp
                (RecordStore.save 5 "k" "old" "notes" ∅) "k"
                (mkMemoryRecord "k" "old" "notes" 5 5 0) "new" "code" 9%Z) as H.
  apply H. vm_compute. reflexivity.
Defined.

(* ===================================================================== *)
(** ** recall_memory                                                    *)
(* ===================================================================== *)

Section RecallMemoryFacts.
Context {W : Type} `{MemoryManager W}.

(** The "not found" text is no "error" text: they part at their fifth
    byte. *)
Lemma not_found_text_is_no_error_text k e : not_found_text k ≠ error_text e.
Proof. unfold not_found_text, error_text. simpl. discriminate. Qed.

(** [recallMemory] in terms of what the manager answers. *)
Lemma recallMemory_cases (args : RecallMemoryArgs) (w : W) :
  recallMemory args w =
    match underlying_recall args w with
    | (w', Returned (Some m)) => (w', Returned (text_result (found_text m)))
    | (w', Returned None) =>
        (w', Returned (text_result (not_found_text (recall_key args))))
    | (w', Threw e) => (w', Returned (text_result (error_text e)))
    end.
Proof.
  unfold recallMemory, underlying_recall, try_catch, bind, ret.
  destruct (getInstance w) as [w1 [[]|e]]; [|reflexivity].
  destruct (mm_recall (recall_key args) w1) as [w2 [[m|]|e]]; reflexivity.
Qed.


(** C9.  The result of [recallMemory] does not depend on its [category]
    argument: for every manager, world and key, any two values of the
    optional category (absent included) give the same result and leave the
    same world. *)
Theorem recallMemory_ignores_category (k : string) (c1 c2 : option string) (w : W) :
  recallMemory (mkRecallMemoryArgs k c1) w
  = recallMemory (mkRecallMemoryArgs k c2) w.
Proof.
  rewrite !recallMemory_cases. unfold underlying_recall. reflexivity.
Qed.

End RecallMemoryFacts.



(* ===================================================================== *)
(** ** save_memory                                                      *)
(* ===================================================================== *)

Section SaveMemoryFacts.
Context {W : Type} `{MemoryManager W}.

(** [saveMemory] in terms of what the manager answers to the one [save]
    call it makes; no exception escapes it. *)
Lemma saveMemory_cases (args : SaveMemoryArgs) (w : W) :
  let category := default "general" (save_category args) in
  saveMemory args w =
    match (let* _ := getInstance in
           mm_save (save_key args) (save_value args) category) w with
    | (w', Returned _) =>
        (w', Returned (text_result
                         ("✓ Saved: " +:+ save_key args +:+ newline
                          +:+ "Category: " +:+ category)))
    | (w', Threw e) => (w', Returned (text_result (error_text e)))
    end.
Proof.
  unfold saveMemory, try_catch, bind, ret. simpl.
  destruct (getInstance w) as [w1 [[]|e]]; [|reflexivity].
  destruct (mm_save _ _ _ w1) as [w2 [[]|e]]; reflexivity.
Qed.

End SaveMemoryFacts.

Lemma category_enum_eq :
  category_enum = ["project"; "personal"; "code"; "notes"].
Proof. reflexivity. Qed.

(** [saveMemory] calls [save] once, with the category argument, or with
    ['general'] when the argument is omitted. *)
Lemma stored_categories_eq (args : SaveMemoryArgs) :
  stored_categories args = [default "general" (save_category args)].
Proof. reflexivity. Qed.

(** C6, as stated, fails when [category] is omitted: the call
    [saveMemory({ key: "k", value: "v" })] stores the category ['general'],
    which the [enum] of the input schema does not list. *)
Lemma saveMemory_default_category_undeclared :
  exists c,
    c ∈ stored_categories (mkSaveMemoryArgs "k" "v" None) /\
    c ∉ category_enum.
Proof.
  exists "general". split.
  - rewrite stored_categories_eq. simpl. apply list_elem_of_here.
  - rewrite category_enum_eq. intros Hin.
    rewrite !elem_of_cons, elem_of_nil in Hin.
    intuition discriminate.
Qed.

(** C6, amended.  [saveMemory] passes to the store the category it is
    given, and ['general'] when the argument is omitted; it does not check
    it.  So the stored category is in the declared enumeration or is
    ['general'] whenever the argument, if present, is in the enumeration. *)
Theorem saveMemory_stored_category (args : SaveMemoryArgs) :
  stored_categories args = [default "general" (save_category args)] /\
  ((forall c, save_category args = Some c -> c ∈ category_enum) ->
   forall c, c ∈ stored_categories args ->
     c ∈ category_enum \/ c = "general").
Proof.
  split; [apply stored_categories_eq|].
  intros Hdeclared c. rewrite stored_categories_eq.
  intros Hc%list_elem_of_singleton. subst c.
  destruct (save_category args) as [c|]; simpl; [left; by apply Hdeclared|by right].
Qed.

(** A call with the declared category ["code"]. *)
Lemma saveMemory_stored_category_witness :
  stored_categories (mkSaveMemoryArgs "k" "v" (Some "code")) = ["code"] /\
  (forall c, c ∈ stored_categories (mkSaveMemoryArgs "k" "v" (Some "code")) ->
     c ∈ category_enum \/ c = "general").
Proof.
  destruct (saveMemory_stored_category (mkSaveMemoryArgs "k" "v" (Some "code")))
    as [Heq Hin].
  split; [exact Heq|].
  apply Hin. simpl. intros c [= <-]. rewrite category_enum_eq.
  do 2 apply list_elem_of_further. apply list_elem_of_here.
Defined.

(* ===================================================================== *)
(** ** Graph statistics                                                 *)
(* ===================================================================== *)

Section AnalyticsFacts.
Import Analytics.

(** The division is evaluated exactly when [graph.edges] is non-empty. *)
Lemma average_connections_evaluated graph detailed :
  average_connections (graph_stats graph detailed) =
    match edges graph with
    | [] => None
    | _ :: _ =>
        Some (mkDivision (length (edges graph) * 2) (length (nodes graph)))
    end.
Proof. unfold graph_stats. simpl. by destruct (edges graph). Qed.

(** [generateGraphStats] reports the statistics of the graph the manager
    hands out. *)
Lemma generateGraphStats_returns {W} `{MemoryManager W} detailed (w w' : W) graph :
  mm_getMemoryGraph w = (w', Returned graph) ->
  generateGraphStats detailed w = (w', Returned (graph_stats graph detailed)).
Proof. intros Hg. unfold generateGraphStats, bind, ret. by rewrite Hg. Qed.

(** C10.  The average-connections division never divides by zero: for
    every graph whose edges have both ends in [graph.nodes], whenever the
    statistics evaluate [graph.edges.length * 2 / graph.nodes.length]
    (which they do only for a non-empty [graph.edges]) the divisor
    [graph.nodes.length] is not zero. *)
Theorem average_connections_divisor_nonzero graph detailed q :
  edges_closed graph ->
  average_connections (graph_stats graph detailed) = Some q ->
  edges graph ≠ [] /\
  dividend q = (length (edges graph) * 2)%nat /\
  divisor q = length (nodes graph) /\
  divisor q ≠ 0%nat.
Proof.
  intros Hclosed. rewrite average_connections_evaluated.
  destruct (edges graph) as [|e es] eqn:Hes; [discriminate|].
  intros [= <-]. simpl. repeat split; [discriminate|].
  destruct (Hclosed e) as [Hsrc _].
  { rewrite Hes. apply list_elem_of_here. }
  destruct (nodes graph); [|discriminate].
  by apply elem_of_nil in Hsrc.
Qed.

End AnalyticsFacts.

(** Two nodes joined by one relation: 2 connections over 2 nodes. *)
Lemma average_connections_divisor_nonzero_witness :
  let graph :=
    mkMemoryGraph ["a"; "b"]
      [mkMemoryRelation 1 "a" "b" "related_to" 1 None 0] [["a"; "b"]] in
  edges graph ≠ [] /\
  Analytics.dividend (Analytics.mkDivision 2 2)
  = (length (edges graph) * 2)%nat /\
  Analytics.divisor (Analytics.mkDivision 2 2) = length (nodes graph) /\
  Analytics.divisor (Analytics.mkDivision 2 2) ≠ 0%nat.
Proof.
  intros graph.
  apply (average_connections_divisor_nonzero graph false).
  - intros e He. apply list_elem_of_singleton in He. subst e. simpl.
    split; [apply list_elem_of_here|apply list_elem_of_further, list_elem_of_here].
  - reflexivity.
Defined.

(* ===================================================================== *)
(** ** Registry, dispatch and entry point                               *)
(* ===================================================================== *)

Section ServerFacts.
Import Server.
Context {W Args : Type} `{Host W Args}.

(** The keys of [toolHandlers] are the names of [tools], in the same
    order. *)
Lemma toolHandlers_keys_are_tool_names :
  map fst toolHandlers = map name (tools (W := W) (Args := Args)).
Proof. reflexivity. Qed.

(** A property read misses exactly on the names that are neither a key of
    [toolHandlers] nor a member of [Object.prototype]. *)
Lemma assoc_None {A} (k : string) (l : list (string * A)) :
  (assoc k l = None) <-> (k ∉ map fst l).
Proof.
  induction l as [|[k' a] l IH]; simpl.
  - split; [intros _; apply not_elem_of_nil|done].
  - rewrite not_elem_of_cons. case_bool_decide; subst.
    + split; [discriminate|]. intros [Hne _]. by destruct Hne.
    + rewrite IH. split; [intros ?; split; [congruence|done]|by intros [_ ?]].
Qed.

Lemma get_property_None (n : string) :
  (get_property n = None) <->
  ((n ∉ map fst toolHandlers) /\ (n ∉ map fst Object_prototype)).
Proof.
  unfold get_property. rewrite <- !assoc_None.
  destruct (assoc n toolHandlers); [split; [discriminate|by intros [? _]]|].
  destruct (assoc n Object_prototype); simpl;
    [split; [discriminate|by intros [_ ?]]|done].
Qed.

(** A name that no object on the prototype chain knows is refused with
    [MethodNotFound]. *)
Lemma callTool_unknown_name (n : string) (args : option Args) (w : W) :
  n ∉ map fst toolHandlers -> n ∉ map fst Object_prototype ->
  callTool (mkCallToolRequest n args) w
  = (w, Threw (new_McpError MethodNotFound ("Unknown tool: " +:+ n))).
Proof.
  intros Hown Hproto.
  assert (get_property n = None) as Hget by (apply get_property_None; done).
  unfold callTool, try_catch, throw. cbn [req_name req_arguments].
  rewrite Hget. reflexivity.
Qed.

(** A registered name runs its tool function; what the function returns
    is returned, an [McpError] it throws is thrown again, and anything else
    it throws becomes an [InternalError]. *)
Lemma callTool_registered (n : string) (f : ToolFn) (args : option Args) (w : W) :
  assoc n toolHandlers = Some f ->
  callTool (mkCallToolRequest n args) w =
    match run_tool f args w with
    | (w', Returned r) => (w', Returned (ToolValue r))
    | (w', Threw e) =>
        (w', Threw (if instanceof_McpError e then e
                    else new_McpError InternalError
                           ("Tool execution failed: " +:+ message_or_unknown e)))
    end.
Proof.
  intros Hf.
  unfold callTool, get_property, try_catch, call_handler, bind, ret, throw.
  cbn [req_name req_arguments]. rewrite Hf.
  destruct (run_tool f args w) as [w' [r|e]]; [reflexivity|].
  by destruct (instanceof_McpError e).
Qed.

(** C8 at the request [{ name: "constructor" }].  The name is no key of
    [toolHandlers] and no tool name, yet the property read finds
    [Object.prototype.constructor]: the handler calls [Object(args)] and
    returns its value instead of throwing [MethodNotFound]. *)
Theorem callTool_constructor_is_dispatched (args : option Args) (w : W) :
  ("constructor" ∉ map fst toolHandlers) /\
  ("constructor" ∉ map name (tools (W := W) (Args := Args))) /\
  callTool (mkCallToolRequest "constructor" args) w
  = (w, Returned (ObjectValue args)).
Proof.
  assert ("constructor" ∉ map fst toolHandlers) as Hkeys.
  { apply assoc_None. reflexivity. }
  split; [exact Hkeys|].
  split; [by rewrite <- toolHandlers_keys_are_tool_names|].
  reflexivity.
Qed.

(** No inherited name is refused with [MethodNotFound]: the call returns,
    or its [TypeError] is reported as an [InternalError]. *)
Lemma callTool_inherited_name (n : string) (m : ObjectPrototypeMember)
    (args : option Args) (w : W) :
  assoc n toolHandlers = None -> assoc n Object_prototype = Some m ->
  callTool (mkCallToolRequest n args) w =
    (w, match call_inherited m args with
        | Returned v => Returned v
        | Threw e =>
            Threw (new_McpError InternalError
                     ("Tool execution failed: " +:+ message_or_unknown e))
        end).
Proof.
  intros Hown Hproto.
  unfold callTool, get_property, try_catch, call_handler, throw.
  cbn [req_name req_arguments]. rewrite Hown, Hproto.
  destruct m, args; reflexivity.
Qed.

(** C7.  The configuration is advisory only: for any two session
    arguments whose configurations (when present) [configSchema] accepts,
    the default export builds the same server, with the same tool list and
    the same [CallTool] behaviour on every request and world. *)
Theorem config_has_no_effect (a1 a2 : SessionArgs) :
  (forall c, config a1 = Some c -> config_accepted c) ->
  (forall c, config a2 = Some c -> config_accepted c) ->
  default_export (W := W) (Args := Args) a1 = default_export a2 /\
  listTools (default_export (W := W) (Args := Args) a1)
  = listTools (default_export a2) /\
  (forall request w,
     callToolHandler (default_export (W := W) (Args := Args) a1) request w
     = callToolHandler (default_export a2) request w).
Proof.
  intros _ _.
  assert (forall a, default_export (W := W) (Args := Args) a = createServer tt)
    as Hexport by (intros a; reflexivity).
  rewrite !Hexport. repeat split.
Qed.

End ServerFacts.

(** Two sessions at the two ends of the accepted range of [maxMemories],
    one with the graph disabled. *)
Lemma config_has_no_effect_witness :
  let a1 := Server.mkSessionArgs "s1"
              (Some (Server.mkConfig (Some 10%Q) (Some false))) in
  let a2 := Server.mkSessionArgs "s2"
              (Some (Server.mkConfig (Some 1000%Q) None)) in
  let export := Server.default_export (H := Server.idle_host) in
  export a1 = export a2 /\
  Server.listTools (export a1) = Server.listTools (export a2) /\
  (forall request w,
     Server.callToolHandler (export a1) request w
     = Server.callToolHandler (export a2) request w).
Proof.
  intros a1 a2 export.
  apply (config_has_no_effect (H := Server.idle_host) a1 a2).
  - intros c [= <-]. exists (10%Q, false). reflexivity.
  - intros c [= <-]. exists (1000%Q, true). reflexivity.
Defined.

(* ===================================================================== *)
(** ** Relation Store                                                   *)
(* ===================================================================== *)

Section RelationStoreFacts.
Import RelationStore.
Implicit Types (s : Relations) (r : MemoryRelation) (a b t : string).

Lemma same_triple_spec a b t r :
  same_triple a b t r = true <-> triple r = (a, b, t).
Proof.
  unfold same_triple, triple.
  rewrite !andb_true_iff, !bool_decide_eq_true.
  split; [intros [[-> ->] ->]; reflexivity|intros [= -> -> ->]; auto].
Qed.

Lemma existsb_same_triple a b t (l : list MemoryRelation) :
  existsb (same_triple a b t) l = true <-> (a, b, t) ∈ map triple l.
Proof.
  rewrite existsb_exists, list_elem_of_fmap.
  split.
  - intros (r & Hin & Hr). exists r.
    split; [symmetry; by apply same_triple_spec|by apply list_elem_of_In].
  - intros (r & Heq & Hin). exists r.
    split; [by apply list_elem_of_In|by apply same_triple_spec].
Qed.

(** Rewriting the row of a triple in place leaves the triples as they
    were. *)
Lemma update_keeps_triples a b t (w : Q) meta (l : list MemoryRelation) :
  map triple
      (map (fun r => if same_triple a b t r
                     then mkMemoryRelation (rel_id r) a b t w meta (rel_timestamp r)
                     else r) l)
  = map triple l.
Proof.
  induction l as [|r l IH]; [reflexivity|]. simpl. rewrite IH. f_equal.
  destruct (same_triple a b t r) eqn:Hr; [|reflexivity].
  apply same_triple_spec in Hr. by rewrite Hr.
Qed.

(** A successful [link] leaves the triple in the table and keeps the
    constraint. *)
Lemma link_unique now a b t str meta s s' :
  unique_triples s -> link now a b t str meta s = inr s' ->
  unique_triples s' /\ (a, b, t) ∈ map triple (rows s').
Proof.
  unfold unique_triples, link. intros Hs.
  destruct (bool_decide (a = EmptyString) || bool_decide (b = EmptyString));
    [discriminate|].
  destruct (existsb (same_triple a b t) (rows s)) eqn:Hex; intros [= <-]; simpl.
  - rewrite update_keeps_triples. split; [done|].
    by apply existsb_same_triple.
  - rewrite map_app. simpl. split.
    + apply NoDup_app. split; [done|]. split; [|apply NoDup_singleton].
      intros x Hx Hx'. apply list_elem_of_singleton in Hx'. subst x.
      apply existsb_same_triple in Hx. simpl in Hx. congruence.
    + apply elem_of_app. right. apply list_elem_of_here.
Qed.

(** A [link] with two non-empty keys succeeds. *)
Lemma link_succeeds now a b t str meta s :
  a ≠ EmptyString -> b ≠ EmptyString ->
  exists s', link now a b t str meta s = inr s'.
Proof.
  intros Ha Hb. unfold link.
  rewrite (bool_decide_eq_false_2 _ Ha), (bool_decide_eq_false_2 _ Hb). simpl.
  destruct (existsb (same_triple a b t) (rows s)); eauto.
Qed.

Lemma filter_keeps_unique (P : MemoryRelation -> Prop)
    `{forall r, Decision (P r)} (l : list MemoryRelation) :
  NoDup (map triple l) -> NoDup (map triple (filter P l)).
Proof.
  induction l as [|r l IH]; [done|]. simpl.
  rewrite NoDup_cons. intros [Hr Hl].
  rewrite filter_cons. destruct (decide (P r)); [|by apply IH].
  simpl. apply NoDup_cons. split; [|by apply IH].
  intros Hin. apply Hr.
  apply list_elem_of_fmap in Hin as (r' & Heq & Hin).
  apply list_elem_of_filter in Hin as [_ Hin].
  apply list_elem_of_fmap. eauto.
Qed.

Lemma step_unique s op : unique_triples s -> unique_triples (step s op).
Proof.
  intros Hs. destruct op as [now a b t str meta|a b t]; simpl.
  - destruct (link now a b t str meta s) as [|s'] eqn:Hlink; [done|].
    by destruct (link_unique _ _ _ _ _ _ _ _ Hs Hlink).
  - unfold unlink, unique_triples. simpl. by apply filter_keeps_unique.
Qed.

(** The constraint is an invariant of every run. *)
Lemma run_unique ops s : unique_triples s -> unique_triples (run ops s).
Proof.
  unfold run. revert s.
  induction ops as [|op ops IH]; intros s Hs; simpl; [done|].
  by apply IH, step_unique.
Qed.

Lemma empty_unique : unique_triples empty.
Proof. apply NoDup_nil_2. Qed.

(** Under the constraint a triple labels at most one row, and exactly one
    when it is in the table. *)
Lemma count_triple_unique a b t s :
  unique_triples s ->
  (count_triple a b t s <= 1)%nat /\
  ((a, b, t) ∈ map triple (rows s) -> count_triple a b t s = 1%nat).
Proof.
  unfold unique_triples, count_triple.
  induction (rows s) as [|r l IH]; simpl.
  - intros _. split; [lia|]. by intros ?%elem_of_nil.
  - rewrite NoDup_cons. intros [Hr Hl]. destruct (IH Hl) as [IHle IHin].
    rewrite filter_cons.
    destruct (decide (same_triple a b t r = true)) as [Heq|Hne]; simpl.
    + apply same_triple_spec in Heq. rewrite Heq in Hr.
      assert (filter (fun r0 => same_triple a b t r0 = true) l = []) as ->.
      { destruct (filter _ l) as [|r' l'] eqn:Hf; [done|].
        assert (r' ∈ filter (fun r0 => same_triple a b t r0 = true) l) as Hin
          by (rewrite Hf; apply list_elem_of_here).
        apply list_elem_of_filter in Hin as [Hr' Hin].
        apply same_triple_spec in Hr'. destruct Hr.
        apply list_elem_of_fmap. eauto. }
      simpl. split; [lia|done].
    + split; [done|]. rewrite elem_of_cons. intros [Heq|Hin]; [|by apply IHin].
      destruct Hne. by apply same_triple_spec.
Qed.

(** C2.  Edge-triple uniqueness is an invariant of the relation store:
    after any sequence of link (and unlink) requests on the empty table, a
    triple [(a, b, t)] labels at most one row; and from any such table,
    linking [(a, b, t)] twice with non-empty keys (with any strengths,
    metadata and clock readings) leaves exactly one row for it, in
    particular for [t = "related_to"]. *)
Theorem link_triple_unique (ops : list Op) a b t :
  (count_triple a b t (run ops empty) <= 1)%nat /\
  (a ≠ EmptyString -> b ≠ EmptyString ->
   forall now1 now2 str1 str2 meta1 meta2,
     count_triple a b t
       (run [Link now1 a b t str1 meta1; Link now2 a b t str2 meta2]
            (run ops empty)) = 1%nat).
Proof.
  pose proof (run_unique ops empty empty_unique) as Hs.
  split; [by apply count_triple_unique|].
  intros Ha Hb now1 now2 str1 str2 meta1 meta2.
  unfold run at 1. simpl.
  destruct (link_succeeds now1 a b t str1 meta1 (run ops empty) Ha Hb)
    as [s1 Hs1].
  rewrite Hs1.
  destruct (link_unique _ _ _ _ _ _ _ _ Hs Hs1) as [Hu1 _].
  destruct (link_succeeds now2 a b t str2 meta2 s1 Ha Hb) as [s2 Hs2].
  rewrite Hs2.
  destruct (link_unique _ _ _ _ _ _ _ _ Hu1 Hs2) as [Hu2 Hin2].
  by apply count_triple_unique.
Qed.

End RelationStoreFacts.

(** Linking [a -> b] as ["related_to"] twice on a table that already holds
    another relation. *)
Lemma link_triple_unique_witness :
  let ops := [RelationStore.Link 1 "b" "c" "depends_on" None None] in
  (RelationStore.count_triple "a" "b" "related_to"
     (RelationStore.run ops RelationStore.empty) <= 1)%nat /\
  RelationStore.count_triple "a" "b" "related_to"
    (RelationStore.run
       [RelationStore.Link 2 "a" "b" "related_to" None None;
        RelationStore.Link 3 "a" "b" "related_to" (Some (1 # 2)%Q) (Some "m")]
       (RelationStore.run ops RelationStore.empty)) = 1%nat.
Proof.
  intros ops.
  destruct (link_triple_unique ops "a" "b" "related_to") as [Hle Htwice].
  split; [exact Hle|].
  apply Htwice; discriminate.
Defined.

(* ===================================================================== *)
(** ** Graph Engine                                                     *)
(* ===================================================================== *)

Section GraphEngineFacts.
Import GraphEngine.
Implicit Types (es : list MemoryRelation) (eligible : string -> bool).
Implicit Types (k x y root : string) (visited frontier : list string).

(** More hops allowed, more keys within reach. *)
Lemma within_hops_mono es root d d' k :
  within_hops es root d k -> (d <= d')%nat -> within_hops es root d' k.
Proof.
  intros Hk. revert d'.
  induction Hk as [d|d x y _ IH Hxy]; intros d' Hle; [constructor|].
  destruct d' as [|d']; [lia|].
  apply hops_step with x; [apply IH; lia|exact Hxy].
Qed.

Lemma neighbors_adjacent es x y : y ∈ neighbors es x -> adjacent es x y.
Proof.
  unfold neighbors, adjacent. rewrite list_elem_of_In, in_flat_map.
  intros (e & He & Hy). exists e. split; [by apply list_elem_of_In|].
  apply in_app_or in Hy as [Hy|Hy]; case_bool_decide; simpl in Hy;
    try done; destruct Hy as [<-|[]]; auto.
Qed.

Lemma neighbors_within es root d x y :
  within_hops es root d x -> y ∈ neighbors es x -> within_hops es root (S d) y.
Proof. intros Hx Hy. apply hops_step with x; [done|by apply neighbors_adjacent]. Qed.

(** The keys a level adds come from the candidates. *)
Lemma visit_new_candidates eligible visited candidates k :
  k ∈ visit_new eligible visited candidates -> k ∈ candidates.
Proof.
  unfold visit_new.
  assert (forall acc,
            k ∈ fold_left
                  (fun acc k0 =>
                     if eligible k0 && negb (bool_decide (k0 ∈ visited ++ acc))
                     then acc ++ [k0] else acc) candidates acc ->
            k ∈ acc \/ k ∈ candidates) as Hgen.
  { induction candidates as [|c cs IH]; intros acc; simpl; [auto|].
    intros Hk. apply IH in Hk as [Hk|Hk].
    - destruct (eligible c && negb (bool_decide (c ∈ visited ++ acc))).
      + apply elem_of_app in Hk as [Hk|Hk]; [auto|].
        apply list_elem_of_singleton in Hk. subst. right. apply list_elem_of_here.
      + auto.
    - right. by apply list_elem_of_further. }
  intros Hk. apply Hgen in Hk as [Hk|Hk]; [by apply elem_of_nil in Hk|done].
Qed.

Lemma flat_map_neighbors_within es root d frontier y :
  (forall x, x ∈ frontier -> within_hops es root d x) ->
  y ∈ flat_map (neighbors es) frontier -> within_hops es root (S d) y.
Proof.
  intros Hfrontier. rewrite list_elem_of_In, in_flat_map.
  intros (x & Hx & Hy). apply neighbors_within with x.
  - by apply Hfrontier, list_elem_of_In.
  - by apply list_elem_of_In.
Qed.

(** Breadth first: with the frontier [n] hops away and [depth] levels to
    go, nothing beyond [n + depth] hops is visited. *)
Lemma bfs_levels_within eligible es root depth :
  forall n frontier visited,
    (forall x, x ∈ frontier -> within_hops es root n x) ->
    (forall x, x ∈ visited -> within_hops es root (n + depth) x) ->
    forall k, k ∈ bfs_levels eligible es depth frontier visited ->
              within_hops es root (n + depth) k.
Proof.
  induction depth as [|depth IH]; intros n frontier visited Hf Hv k; simpl.
  - apply Hv.
  - replace (n + S depth)%nat with (S n + depth)%nat in * by lia.
    assert (forall x,
              x ∈ visit_new eligible visited (flat_map (neighbors es) frontier) ->
              within_hops es root (S n) x) as Hnext.
    { intros x Hx%visit_new_candidates.
      by apply flat_map_neighbors_within with frontier. }
    apply IH; [exact Hnext|].
    intros x [Hx|Hx]%elem_of_app; [by apply Hv|].
    apply within_hops_mono with (S n); [by apply Hnext|lia].
Qed.

(** Depth first: visiting a key [n] hops away with [depth] hops left adds
    nothing beyond [n + depth] hops. *)
Lemma dfs_visit_within eligible es root depth :
  forall n visited x,
    within_hops es root n x ->
    (forall y, y ∈ visited -> within_hops es root (n + depth) y) ->
    forall k, k ∈ dfs_visit eligible es depth visited x ->
              within_hops es root (n + depth) k.
Proof.
  induction depth as [|depth IH]; intros n visited x Hx Hv k.
  - simpl. destruct (bool_decide (x ∈ visited) || negb (eligible x)); [apply Hv|].
    intros [Hk|Hk]%elem_of_app; [by apply Hv|].
    apply list_elem_of_singleton in Hk. subst k.
    apply within_hops_mono with n; [done|lia].
  - simpl. destruct (bool_decide (x ∈ visited) || negb (eligible x)); [apply Hv|].
    replace (n + S depth)%nat with (S n + depth)%nat in * by lia.
    assert (forall y, y ∈ visited ++ [x] ->
                      within_hops es root (S n + depth) y) as Hv'.
    { intros y [Hy|Hy]%elem_of_app; [by apply Hv|].
      apply list_elem_of_singleton in Hy. subst y.
      apply within_hops_mono with n; [done|lia]. }
    assert (forall y, y ∈ neighbors es x -> within_hops es root (S n) y) as Hn
      by (intros y Hy; by apply neighbors_within with x).
    revert Hv' Hn. generalize (visited ++ [x]) as acc.
    induction (neighbors es x) as [|y ys IHys]; intros acc Hacc Hys; simpl.
    + apply Hacc.
    + apply IHys.
      * intros z Hz. apply (IH (S n) acc y); [|exact Hacc|exact Hz].
        apply Hys, list_elem_of_here.
      * intros z Hz. by apply Hys, list_elem_of_further.
Qed.

(** One hop from [a] in the chain does not reach [c]. *)
Lemma chain_c_beyond_one_hop : ~ within_hops chain_relations "a" 1 "c".
Proof.
  intros Hc. inversion Hc as [|d x y Hx Hxy]; subst.
  assert (x = "a") as -> by (inversion Hx; reflexivity).
  destruct Hxy as (e & He & Hends).
  unfold chain_relations in He. simpl in He.
  rewrite !elem_of_cons, elem_of_nil in He.
  destruct He as [->|[->|[]]]; simpl in Hends;
    destruct Hends as [[? ?]|[? ?]]; discriminate.
Qed.

(** C4.  Traversal depth is a hard bound: for every store, relation set,
    root, [maxDepth] and strategy, every node of [traverse root maxDepth]
    is reachable from the root along at most [maxDepth] relations.  In the
    chain [a --related_to--> b --depends_on--> c], [traverse a 1] has the
    nodes [a] and [b] and not [c], which is two hops away. *)
Theorem traverse_depth_bound :
  (forall (records : gmap string MemoryRecord) es root (maxDepth : nat)
          (strategy : Strategy) k,
     k ∈ nodes (traverse records es root maxDepth strategy) ->
     within_hops es root maxDepth k) /\
  (forall strategy,
     nodes (traverse chain_records chain_relations "a" 1 strategy) = ["a"; "b"]) /\
  ~ within_hops chain_relations "a" 1 "c".
Proof.
  split; [|split; [by intros []|exact chain_c_beyond_one_hop]].
  intros records es root maxDepth strategy k. unfold traverse. simpl.
  destruct strategy.
  - destruct (known records root); [|by intros ?%elem_of_nil].
    apply (bfs_levels_within (known records) es root maxDepth 0).
    + intros x Hx%list_elem_of_singleton. subst. constructor.
    + intros x Hx%list_elem_of_singleton. subst. constructor.
  - apply (dfs_visit_within (known records) es root maxDepth 0 [] root).
    + constructor.
    + by intros y ?%elem_of_nil.
Qed.

End GraphEngineFacts.

(** In the chain, [b] is a node of the depth-1 traversal from [a], and one
    hop away. *)
Lemma traverse_depth_bound_witness :
  "b" ∈ nodes (GraphEngine.traverse GraphEngine.chain_records
                 GraphEngine.chain_relations "a" 1 GraphEngine.bfs) /\
  GraphEngine.within_hops GraphEngine.chain_relations "a" 1 "b".
Proof.
  assert ("b" ∈ nodes (GraphEngine.traverse GraphEngine.chain_records
                         GraphEngine.chain_relations "a" 1 GraphEngine.bfs))
    as Hb by (vm_compute; apply list_elem_of_further, list_elem_of_here).
  split; [exact Hb|].
  exact (proj1 traverse_depth_bound GraphEngine.chain_records
           GraphEngine.chain_relations "a" 1%nat GraphEngine.bfs "b" Hb).
Defined.

(* ===================================================================== *)
(** ** Dispatch, prompts and resources                                   *)
(* ===================================================================== *)

Section DispatchFacts.
Import Server.
Context {W Args : Type} `{Host W Args}.

Lemma assoc_elem_of {A} (k : string) (l : list (string * A)) :
  k ∈ map fst l -> exists a, assoc k l = Some a.
Proof.
  intros Hk. destruct (assoc k l) as [a|] eqn:Ha; [eauto|].
  by apply assoc_None in Ha.
Qed.


(** The six tools whose definitions are in the sources are advertised
    and dispatched to their own functions: each definition is in the
    [tools] array that [ListTools] returns, its [name] is a key of
    [toolHandlers] bound to the function exported by the same file, and a
    call under that name runs this function, returns what it returns,
    rethrows an [McpError] it throws and reports anything else as an
    [InternalError]. *)
Theorem source_tools_are_dispatched :
  Forall
    (fun df : ToolDefinition * ToolFn =>
       df.1 ∈ tools (W := W) (Args := Args) /\
       assoc (name df.1) toolHandlers = Some df.2 /\
       forall (args : option Args) (w : W),
         callTool (mkCallToolRequest (name df.1) args) w =
           match run_tool df.2 args w with
           | (w', Returned r) => (w', Returned (ToolValue r))
           | (w', Threw e) =>
               (w', Threw (if instanceof_McpError e then e
                           else new_McpError InternalError
                                  ("Tool execution failed: "
                                   +:+ message_or_unknown e)))
           end)
    [ (saveMemoryDefinition, fn_saveMemory);
      (recallMemoryDefinition, fn_recallMemory);
      (enhancePromptDefinition, fn_enhancePrompt);
      (enhancePromptGeminiDefinition, fn_enhancePromptGemini);
      (applyReasoningFrameworkDefinition, fn_applyReasoningFramework);
      (getUsageAnalyticsDefinition, fn_getUsageAnalytics) ].
Proof.
  repeat apply List.Forall_cons; try apply List.Forall_nil;
    (split;
     [ repeat first [apply list_elem_of_here | apply list_elem_of_further]
     | split; [reflexivity|intros args w; by apply callTool_registered] ]).
Qed.

End DispatchFacts.

(** The request [{ name: "no_such_tool" }] on a host without tools. *)
Lemma callTool_unknown_name_witness :
  Server.callTool (H := Server.idle_host)
    (Server.mkCallToolRequest "no_such_tool" None) tt
  = (tt, Threw (Server.new_McpError (H := Server.idle_host) MethodNotFound
                  "Unknown tool: no_such_tool")).
Proof.
  apply (callTool_unknown_name (H := Server.idle_host) "no_such_tool" None tt).
  - apply assoc_None. reflexivity.
  - apply assoc_None. reflexivity.
Defined.

Section PromptFacts.
Import Server Text Prompts.
Context {W Args : Type} `{Host W Args}.

(** An argument given as the empty string reads like one that is
    absent. *)
Lemma or_else_blank (o : gmap string string) (k k' d : string) :
  or_else (argument (Some (<[k := EmptyString]> o)) k') d
  = or_else (argument (Some (delete k o)) k') d.
Proof.
  simpl. destruct (decide (k = k')) as [->|Hne].
  - by rewrite lookup_insert_eq, lookup_delete_eq.
  - by rewrite lookup_insert_ne, lookup_delete_ne.
Qed.

(** [GetPrompt] serves exactly the prompts [ListPrompts] lists: each of
    them yields one user message, whatever the arguments (a required
    argument that is missing is no error), and every other name is refused
    with [InvalidRequest]. *)
Theorem getPrompt_serves_listed_prompts (n : string)
    (args : option (gmap string string)) :
  map prompt_name prompts
  = listPrompts (createServer (W := W) (Args := Args) tt) /\
  if bool_decide (n ∈ map prompt_name prompts)
  then exists t, getPrompt (W := W) (Args := Args) n args
                 = Returned (user_message t)
  else getPrompt (W := W) (Args := Args) n args
       = Threw (new_McpError InvalidRequest ("Unknown prompt: " +:+ n)).
Proof.
  split; [reflexivity|].
  unfold getPrompt.
  change (map prompt_name prompts)
    with ["code-review"; "problem-solver"; "project-kickoff"].
  destruct (decide (n = "code-review")) as [->|H1]; [switch_tests; eauto|].
  destruct (decide (n = "problem-solver")) as [->|H2]; [switch_tests; eauto|].
  destruct (decide (n = "project-kickoff")) as [->|H3]; [switch_tests; eauto|].
  switch_tests. reflexivity.
Qed.

(** [GetPrompt] does not tell an empty argument from a missing one, nor
    absent arguments from an empty object; and the declared [language]
    argument of [code-review] has no effect. *)
Theorem getPrompt_blank_argument_as_absent (n k : string)
    (o : gmap string string) :
  getPrompt (W := W) (Args := Args) n (Some (<[k := EmptyString]> o))
  = getPrompt n (Some (delete k o)) /\
  getPrompt (W := W) (Args := Args) n None = getPrompt n (Some ∅) /\
  forall v,
    getPrompt (W := W) (Args := Args) "code-review" (Some (<["language" := v]> o))
    = getPrompt "code-review" (Some o).
Proof.
  split; [|split].
  - unfold getPrompt. by rewrite !or_else_blank.
  - reflexivity.
  - intros v. unfold getPrompt. simpl. by rewrite lookup_insert_ne.
Qed.

End PromptFacts.

Section ResourceFacts.
Import Server Text Resources.
Context {W Args : Type} `{Host W Args} `{SessionContext W}.

(** [ReadResource] serves exactly the resources [ListResources] lists,
    and never fails on them.
    - The session context is the text the manager's data print to; when
      building it throws, the answer is still a resource: the heading
      [# Session Context], an empty line and
      [_Cannot load memories: <message>_].
    - Each of the three guides is a constant text: the same in every world,
      served without touching the world, whatever state the manager is
      in.  The texts open with their own titles.
    - Every other URI is refused with [InvalidRequest] and the world is
      left as it was. *)
Theorem readResource_serves_listed_resources (uri : string) (w : W) :
  let line_feed := String (Ascii.ascii_of_nat 10) EmptyString in
  (String.prefix ("# Code Quality Rules" +:+ line_feed) quality_rules_text
   && String.prefix ("# Naming Conventions" +:+ line_feed)
        naming_conventions_text
   && String.prefix ("# Hi-AI Capabilities (v2.1)" +:+ line_feed)
        capabilities_text = true) /\
  if bool_decide
       (uri ∈ listResources (createServer (W := W) (Args := Args) tt))
  then
    if bool_decide (uri = "hi-ai://context/session")
    then
      readResource (Args := Args) uri w =
        match session_context_markdown w with
        | (w', Returned t) => (w', Returned (plain_text uri t))
        | (w', Threw e) =>
            (w', Returned
                   (plain_text uri
                      ("# Session Context" +:+ line_feed +:+ line_feed
                       +:+ "_Cannot load memories: "
                       +:+ message_or_unknown e +:+ "_")))
        end
    else
      readResource (Args := Args) uri w =
        (w, Returned
              (plain_text uri
                 (if bool_decide (uri = "hi-ai://guides/quality-rules")
                  then quality_rules_text
                  else if bool_decide (uri = "hi-ai://guides/naming-conventions")
                  then naming_conventions_text
                  else capabilities_text)))
  else readResource (Args := Args) uri w
       = (w, Threw (new_McpError InvalidRequest ("Unknown resource: " +:+ uri))).
Proof.
  intros line_feed. split; [by vm_compute|].
  unfold readResource.
  change (listResources (createServer tt))
    with ["hi-ai://context/session"; "hi-ai://guides/quality-rules";
          "hi-ai://guides/naming-conventions"; "hi-ai://info/capabilities"].
  destruct (decide (uri = "hi-ai://context/session")) as [->|H1].
  { switch_tests. unfold try_catch, bind, ret.
    destruct (session_context_markdown w) as [w' [t|e]]; reflexivity. }
  destruct (decide (uri = "hi-ai://guides/quality-rules")) as [->|H2];
    [switch_tests; reflexivity|].
  destruct (decide (uri = "hi-ai://guides/naming-conventions")) as [->|H3];
    [switch_tests; reflexivity|].
  destruct (decide (uri = "hi-ai://info/capabilities")) as [->|H4];
    [switch_tests; reflexivity|].
  switch_tests. reflexivity.
Qed.

End ResourceFacts.

(* ===================================================================== *)
(** ** Usage analytics                                                   *)
(* ===================================================================== *)

Section CountingFacts.
Import Analytics UsageAnalytics.
Implicit Types (counts : gmap string Counter) (k : string).
Implicit Types (keys seen : list string).

Lemma total_empty : total ∅ = 0%nat.
Proof. apply map_fold_empty. Qed.

Lemma total_insert_fresh counts k v :
  counts !! k = None ->
  total (<[k := v]> counts) = (weight (Some v) + total counts)%nat.
Proof.
  intros Hk. unfold total. rewrite map_fold_insert_L; [by destruct v| |done].
  intros j1 j2 [n1|m1 o1] [n2|m2 o2] y _ _ _; lia.
Qed.

Lemma total_delete counts k :
  total counts = (weight (counts !! k) + total (delete k counts))%nat.
Proof.
  destruct (counts !! k) as [v|] eqn:Hk.
  - rewrite <- (insert_id counts k v Hk) at 1.
    rewrite <- (insert_delete_eq counts).
    by rewrite total_insert_fresh by apply lookup_delete_eq.
  - by rewrite delete_id.
Qed.

Lemma total_insert counts k v :
  (total (<[k := v]> counts) + weight (counts !! k)
   = weight (Some v) + total counts)%nat.
Proof.
  rewrite <- (insert_delete_eq counts).
  rewrite total_insert_fresh by apply lookup_delete_eq.
  rewrite (total_delete counts k). lia.
Qed.

(** Counting a key leaves the other entries alone. *)
Lemma bump_lookup_ne counts k k' : k ≠ k' -> bump k counts !! k' = counts !! k'.
Proof.
  intros Hne. unfold bump.
  destruct (counts !! k) as [[n|m ones]|];
    [by rewrite lookup_insert_ne..|].
  destruct (assoc k Object_prototype) as [[]|];
    by rewrite ?lookup_insert_ne.
Qed.

Lemma occurrences_snoc seen k0 k :
  length (filter (fun x => x = k) (seen ++ [k0]))
  = (length (filter (fun x => x = k) seen) + (if decide (k0 = k) then 1 else 0))%nat.
Proof.
  rewrite filter_app, length_app, filter_cons, filter_nil.
  by destruct (decide (k0 = k)).
Qed.

Lemma plain_keys_snoc seen k0 :
  length (plain_keys (seen ++ [k0]))
  = (length (plain_keys seen) + (if plain_key k0 then 1 else 0))%nat.
Proof.
  unfold plain_keys. rewrite filter_app, length_app, filter_cons, filter_nil.
  destruct (decide (plain_key k0 = true)) as [->|Hk]; [done|].
  by destruct (plain_key k0).
Qed.

(** One more round of the loop: the entries follow [tally] and the numbers
    add up to the plain keys counted so far. *)
Lemma bump_tally seen counts k0 :
  (forall k, counts !! k = tally k (length (filter (fun x => x = k) seen))) ->
  total counts = length (plain_keys seen) ->
  (forall k, bump k0 counts !! k
             = tally k (length (filter (fun x => x = k) (seen ++ [k0])))) /\
  total (bump k0 counts) = length (plain_keys (seen ++ [k0])).
Proof.
  intros Hseen Htotal. split.
  - intros k. rewrite occurrences_snoc.
    destruct (decide (k0 = k)) as [<-|Hne];
      [|by rewrite bump_lookup_ne, Hseen, Nat.add_0_r].
    pose proof (Hseen k0) as Hk0. clear Hseen Htotal. unfold bump, tally in *.
    remember (assoc k0 Object_prototype) as proto eqn:Hproto. clear Hproto.
    destruct (length (filter (fun x => x = k0) seen)) as [|c];
      simpl in Hk0; rewrite Hk0.
    + destruct proto as [[]|]; by rewrite ?lookup_insert_eq.
    + replace (S c + 1)%nat with (S (S c)) by lia.
      destruct proto as [[]|]; by rewrite ?lookup_insert_eq.
  - rewrite plain_keys_snoc, <- Htotal.
    pose proof (Hseen k0) as Hk0. pose proof (total_insert counts k0) as Hins.
    clear Hseen Htotal. unfold bump, tally, plain_key in *.
    remember (assoc k0 Object_prototype) as proto eqn:Hproto. clear Hproto.
    destruct (length (filter (fun x => x = k0) seen)) as [|c];
      simpl in Hk0; rewrite Hk0 in *.
    + destruct proto as [[]|];
        first [ lia
              | match goal with
                | |- context [<[k0 := ?v]> counts] => specialize (Hins v)
                end; simpl in Hins; lia ].
    + destruct proto as [[]|];
        first [ lia
              | match goal with
                | |- context [<[k0 := ?v]> counts] => specialize (Hins v)
                end; simpl in Hins; lia ].
Qed.

Lemma count_all_tally keys : forall seen counts,
  (forall k, counts !! k = tally k (length (filter (fun x => x = k) seen))) ->
  total counts = length (plain_keys seen) ->
  (forall k, count_all keys counts !! k
             = tally k (length (filter (fun x => x = k) (seen ++ keys)))) /\
  total (count_all keys counts) = length (plain_keys (seen ++ keys)).
Proof.
  unfold count_all.
  induction keys as [|k0 keys IH]; intros seen counts Hseen Htotal; simpl.
  - by rewrite app_nil_r.
  - replace (seen ++ k0 :: keys) with ((seen ++ [k0]) ++ keys)
      by (by rewrite <- app_assoc).
    destruct (bump_tally seen counts k0 Hseen Htotal) as [Hseen' Htotal'].
    by apply IH.
Qed.

Lemma count_all_from_empty keys :
  (forall k, count_all keys ∅ !! k
             = tally k (length (filter (fun x => x = k) keys))) /\
  total (count_all keys ∅) = length (plain_keys keys).
Proof.
  apply (count_all_tally keys [] ∅); [|by rewrite total_empty].
  intros k. by rewrite lookup_empty.
Qed.

Lemma fold_bump_map {A} (f : A -> string) (l : list A) counts :
  fold_left (fun acc a => bump (f a) acc) l counts = count_all (map f l) counts.
Proof.
  unfold count_all. revert counts.
  induction l as [|a l IH]; intros counts; simpl; [done|]. apply IH.
Qed.

Lemma fold_bump_ends (es : list MemoryRelation) counts :
  fold_left (fun acc e => bump (targetKey e) (bump (sourceKey e) acc)) es counts
  = count_all (edge_ends es) counts.
Proof.
  unfold count_all, edge_ends. revert counts.
  induction es as [|e es IH]; intros counts; simpl; [done|]. apply IH.
Qed.

Lemma filter_map_length {A} (f : A -> string) (l : list A) k :
  length (filter (fun x => x = k) (map f l))
  = length (filter (fun a => f a = k) l).
Proof.
  induction l as [|a l IH]; simpl; [done|].
  rewrite !filter_cons. destruct (decide (f a = k)); simpl; by rewrite IH.
Qed.

Lemma ends_degree (es : list MemoryRelation) k :
  length (filter (fun x => x = k) (edge_ends es)) = degree es k.
Proof.
  unfold degree, edge_ends. induction es as [|e es IH]; simpl; [done|].
  rewrite !filter_cons.
  destruct (decide (sourceKey e = k)), (decide (targetKey e = k)); simpl;
    rewrite IH; lia.
Qed.

Lemma ends_length (es : list MemoryRelation) :
  length (edge_ends es) = (length es * 2)%nat.
Proof.
  unfold edge_ends. induction es as [|e es IH]; simpl; [done|].
  rewrite IH. lia.
Qed.

Lemma plain_keys_all keys :
  (forall k, k ∈ keys -> plain_key k = true) -> plain_keys keys = keys.
Proof.
  unfold plain_keys. induction keys as [|k keys IH]; intros Hall; [done|].
  rewrite filter_cons_True by apply Hall, list_elem_of_here.
  f_equal. apply IH. intros k' Hk'. by apply Hall, list_elem_of_further.
Qed.

(** Only [__proto__] is never given an entry. *)
Lemma tally_None k c : tally k (S c) = None -> k = "__proto__".
Proof.
  unfold tally, Object_prototype. simpl.
  repeat (case_bool_decide; [discriminate|]).
  case_bool_decide; [done|discriminate].
Qed.

(** The "Relationship Type Distribution" of [generateGraphStats].  For
    a type that names no member of [Object.prototype] the count is exact:
    the number of edges of that type, and no entry without such an edge.
    The type [__proto__] never gets an entry, and the name of any other
    inherited member gets a text instead of a number.  The numbers add up
    to the number of edges of plain type, which is [graph.edges.length]
    when every type is plain.  Nothing is counted for a graph without
    edges. *)
Theorem relation_type_counts (graph : MemoryGraph) (detailed : bool) :
  match relation_types (graph_stats graph detailed) with
  | Some counts =>
      (forall t, counts !! t = tally t (edges_of_type (edges graph) t)) /\
      total counts = length (plain_keys (map relationType (edges graph))) /\
      ((forall e, e ∈ edges graph -> plain_key (relationType e) = true) ->
       total counts = length (edges graph))
  | None => edges graph = []
  end.
Proof.
  unfold graph_stats. simpl.
  destruct (edges graph) as [|e es] eqn:Hes; simpl; [reflexivity|].
  change (bump (relationType e) ∅)
    with (fold_left (fun acc edge => bump (relationType edge) acc) [e] ∅).
  rewrite <- fold_left_app. change ([e] ++ es) with (e :: es).
  rewrite fold_bump_map.
  destruct (count_all_from_empty (map relationType (e :: es)))
    as [Hlookup Htotal].
  split; [|split].
  - intros t. rewrite Hlookup, filter_map_length. reflexivity.
  - exact Htotal.
  - intros Hplain. rewrite Htotal, plain_keys_all, length_map; [done|].
    intros k (e' & -> & He')%list_elem_of_fmap. by apply Hplain.
Qed.

(** The "Most Connected Nodes" of [generateGraphStats].  For a key that
    names no member of [Object.prototype] the count is the degree of the
    key (the number of edge ends at it, a self-loop counting twice), and
    there is no entry for a key on no edge.  The key [__proto__] never gets
    an entry, and the name of any other inherited member gets a text
    instead of a number.  The numbers add up to the number of edge ends at
    plain keys, which is the dividend [graph.edges.length * 2] of the
    average when every key is plain.  The object is not empty, so the test
    [topConnected.length > 0] passes, as soon as one edge has an end other
    than [__proto__]. *)
Theorem connection_counts_are_degrees (graph : MemoryGraph) (detailed : bool) :
  match connection_count (graph_stats graph detailed),
        average_connections (graph_stats graph detailed) with
  | Some counts, Some q =>
      (forall k, counts !! k = tally k (degree (edges graph) k)) /\
      total counts = length (plain_keys (edge_ends (edges graph))) /\
      ((forall e, e ∈ edges graph ->
          plain_key (sourceKey e) = true /\ plain_key (targetKey e) = true) ->
       total counts = dividend q) /\
      ((exists e, e ∈ edges graph /\
          (sourceKey e ≠ "__proto__" \/ targetKey e ≠ "__proto__")) ->
       counts ≠ ∅)
  | None, None => edges graph = []
  | _, _ => False
  end.
Proof.
  unfold graph_stats. simpl.
  destruct (edges graph) as [|e es] eqn:Hes; simpl; [reflexivity|].
  change (bump (targetKey e) (bump (sourceKey e) ∅))
    with (fold_left (fun acc edge =>
                       bump (targetKey edge) (bump (sourceKey edge) acc)) [e] ∅).
  rewrite <- fold_left_app. change ([e] ++ es) with (e :: es).
  rewrite fold_bump_ends.
  destruct (count_all_from_empty (edge_ends (e :: es))) as [Hlookup Htotal].
  assert (forall k, count_all (edge_ends (e :: es)) ∅ !! k
                    = tally k (degree (e :: es) k)) as Hdegree
    by (intros k; by rewrite Hlookup, ends_degree).
  split; [exact Hdegree|]. split; [exact Htotal|]. split.
  - intros Hplain. rewrite Htotal, plain_keys_all, ends_length; [simpl; lia|].
    intros k Hk. unfold edge_ends in Hk.
    apply list_elem_of_In, in_flat_map in Hk as (e' & He' & Hk).
    apply list_elem_of_In in He'. destruct (Hplain e' He') as [Hs Ht].
    destruct Hk as [<-|[<-|[]]]; done.
  - intros (e' & He' & Hend) Hempty.
    assert (exists k, k ≠ "__proto__" /\ exists c, degree (e :: es) k = S c)
      as (k & Hk & c & Hc).
    { unfold degree.
      destruct Hend as [Hend|Hend];
        [exists (sourceKey e')|exists (targetKey e')]; (split; [done|]).
      - assert (e' ∈ filter (fun e0 => sourceKey e0 = sourceKey e') (e :: es))
          as Hin by (by apply list_elem_of_filter).
        destruct (filter (fun e0 => sourceKey e0 = sourceKey e') (e :: es));
          [by apply elem_of_nil in Hin|]. simpl. eauto.
      - assert (e' ∈ filter (fun e0 => targetKey e0 = targetKey e') (e :: es))
          as Hin by (by apply list_elem_of_filter).
        destruct (filter (fun e0 => targetKey e0 = targetKey e') (e :: es));
          [by apply elem_of_nil in Hin|]. simpl.
        rewrite Nat.add_succ_r. eauto. }
    specialize (Hdegree k). rewrite Hempty, lookup_empty, Hc in Hdegree.
    symmetry in Hdegree. by apply tally_None in Hdegree.
Qed.

End CountingFacts.

(** Two edges of plain type over three plain keys: each type is counted
    once and the counts add up to the two edges. *)
Lemma relation_type_counts_witness :
  let graph :=
    mkMemoryGraph ["a"; "b"; "c"]
      [mkMemoryRelation 1 "a" "b" "related_to" 1 None 0;
       mkMemoryRelation 2 "b" "c" "depends_on" 1 None 0] [["a"; "b"; "c"]] in
  exists counts,
    Analytics.relation_types (Analytics.graph_stats graph false) = Some counts /\
    counts !! "related_to" = Some (Analytics.Count 1) /\
    counts !! "part_of" = None /\
    UsageAnalytics.total counts = 2%nat.
Proof.
  intros graph.
  pose proof (relation_type_counts graph false) as Hthm.
  destruct (Analytics.relation_types (Analytics.graph_stats graph false))
    as [counts|]; [|discriminate Hthm].
  destruct Hthm as (Hlookup & _ & Hplain).
  exists counts. split; [reflexivity|].
  split; [by rewrite Hlookup|]. split; [by rewrite Hlookup|].
  rewrite Hplain; [reflexivity|].
  intros e He. unfold graph in He. simpl in He.
  rewrite !elem_of_cons, elem_of_nil in He.
  destruct He as [->|[->|[]]]; reflexivity.
Defined.

(** The same graph: every key is plain, so the counts are the degrees, they
    add up to the dividend of the average, and the object is not empty. *)
Lemma connection_counts_are_degrees_witness :
  let graph :=
    mkMemoryGraph ["a"; "b"; "c"]
      [mkMemoryRelation 1 "a" "b" "related_to" 1 None 0;
       mkMemoryRelation 2 "b" "c" "depends_on" 1 None 0] [["a"; "b"; "c"]] in
  exists counts q,
    Analytics.connection_count (Analytics.graph_stats graph false)
    = Some counts /\
    Analytics.average_connections (Analytics.graph_stats graph false)
    = Some q /\
    counts !! "b" = Some (Analytics.Count 2) /\
    UsageAnalytics.total counts = Analytics.dividend q /\
    counts ≠ ∅.
Proof.
  intros graph.
  pose proof (connection_counts_are_degrees graph false) as Hthm.
  destruct (Analytics.connection_count (Analytics.graph_stats graph false))
    as [counts|];
    destruct (Analytics.average_connections (Analytics.graph_stats graph false))
      as [q|]; [|destruct Hthm..|discriminate Hthm].
  destruct Hthm as (Hlookup & _ & Hplain & Hsome).
  exists counts, q. split; [reflexivity|]. split; [reflexivity|].
  split; [by rewrite Hlookup|]. split.
  - apply Hplain. intros e He. unfold graph in He. simpl in He.
    rewrite !elem_of_cons, elem_of_nil in He.
    destruct He as [->|[->|[]]]; split; reflexivity.
  - apply Hsome.
    exists (mkMemoryRelation 1 "a" "b" "related_to" 1 None 0).
    split; [apply list_elem_of_here|]. left. discriminate.
Defined.

Section TimeRangeFacts.
Import UsageAnalytics.

Lemma filter_sublist_weaken {A} (P Q : A -> Prop)
    `{forall x, Decision (P x)} `{forall x, Decision (Q x)} (l : list A) :
  (forall x, P x -> Q x) -> filter P l `sublist_of` filter Q l.
Proof.
  intros HPQ. induction l as [|x l IH]; simpl; [constructor|].
  rewrite !filter_cons.
  destruct (decide (P x)) as [HP|HP], (decide (Q x)) as [HQ|HQ].
  - by apply sublist_skip.
  - destruct HQ. by apply HPQ.
  - by apply sublist_cons.
  - exact IH.
Qed.

(** The time ranges are nested: the memories counted over the last day
    are among those of the last 7 days, these among those of the last 30
    days, and these among all memories, in the same order.  Any other
    range string is not filtered at all and is labelled "All time". *)
Theorem recentMemories_nested (now : Timestamp) (timeRange : string)
    (allMemories : list MemoryRecord) :
  recentMemories now "1d" allMemories
    `sublist_of` recentMemories now "7d" allMemories /\
  recentMemories now "7d" allMemories
    `sublist_of` recentMemories now "30d" allMemories /\
  recentMemories now "30d" allMemories `sublist_of` allMemories /\
  if bool_decide (timeRange ∈ ["1d"; "7d"; "30d"])
  then getTimeRangeLabel timeRange ≠ "All time"
  else recentMemories now timeRange allMemories = allMemories /\
       getTimeRangeLabel timeRange = "All time".
Proof.
  split; [|split; [|split]].
  - apply filter_sublist_weaken. intros m. simpl. lia.
  - apply filter_sublist_weaken. intros m. simpl. lia.
  - apply sublist_filter.
  - unfold recentMemories, getFilterDate, getTimeRangeLabel.
    destruct (decide (timeRange = "1d")) as [->|H1]; [switch_tests; done|].
    destruct (decide (timeRange = "7d")) as [->|H2]; [switch_tests; done|].
    destruct (decide (timeRange = "30d")) as [->|H3]; [switch_tests; done|].
    switch_tests. done.
Qed.

End TimeRangeFacts.

Section ToolOutcomeFacts.
Context {W : Type} `{MemoryManager W}.

(** A [try] whose [catch] returns lets nothing escape. *)
Lemma try_catch_returns {A} (body : Eff W A) (handler : Thrown -> Eff W A) w :
  (forall e w1, exists w2 a, handler e w1 = (w2, Returned a)) ->
  exists w' a, try_catch body handler w = (w', Returned a).
Proof.
  intros Hhandler. unfold try_catch.
  destruct (body w) as [w1 [a|e]]; [eauto|apply Hhandler].
Qed.

(** What a call of [saveMemory] answers.
    - Called without an arguments object it throws: the [TypeError] of the
      destructuring escapes, for it is raised before the [try]; the manager
      is not reached and the world is left as it was.
    - Called with an arguments object it never throws, whatever the manager
      does: when [getInstance] and [save] return, the text confirms the key
      and the category that was stored (['general'] when omitted); when
      [getInstance] throws, [save] is not called and the text is [✗ Error: ]
      followed by the message; when [save] throws, the text is that error
      text. *)
Theorem saveMemory_reports_outcome (destructuring_message : string)
    (args : option SaveMemoryArgs) (w : W) :
  let line_feed := String (Ascii.ascii_of_nat 10) EmptyString in
  match args with
  | None =>
      saveMemory_call destructuring_message None w
      = (w, Threw (ErrorInstance TypeError destructuring_message))
  | Some a =>
      let category := default "general" (save_category a) in
      saveMemory_call destructuring_message (Some a) w = saveMemory a w /\
      (exists w' r, saveMemory a w = (w', Returned r)) /\
      match getInstance w with
      | (w1, Threw e) =>
          saveMemory a w
          = (w1, Returned (text_result
                             ("✗ Error: " +:+ message_or_unknown e)))
      | (w1, Returned _) =>
          match mm_save (save_key a) (save_value a) category w1 with
          | (w2, Threw e) =>
              saveMemory a w
              = (w2, Returned (text_result
                                 ("✗ Error: " +:+ message_or_unknown e)))
          | (w2, Returned _) =>
              saveMemory a w =
                (w2, Returned (text_result
                                 ("✓ Saved: " +:+ save_key a +:+ line_feed
                                  +:+ "Category: " +:+ category)))
          end
      end
  end.
Proof.
  intros line_feed. destruct args as [a|]; [|reflexivity].
  intros category. split; [reflexivity|]. split.
  - apply try_catch_returns. intros e w1. unfold ret. eauto.
  - rewrite saveMemory_cases. unfold bind, error_text. fold category.
    destruct (getInstance w) as [w1 [[]|e]]; [|reflexivity].
    destruct (mm_save _ _ _ w1) as [w2 [[]|e]]; reflexivity.
Qed.

Section UsageAnalyticsTool.
Import UsageAnalytics.
Context `{Printer W}.

(** [getUsageAnalytics] never throws, whatever the manager and the
    report generators do, and even when the request carries no arguments:
    the destructuring is inside the [try], so its [TypeError] is answered
    as an "Analysis error" text and the world is left untouched. *)
Theorem getUsageAnalytics_never_throws
    (args : option GetUsageAnalyticsArgs) (w : W) :
  (exists w' r, getUsageAnalytics args w = (w', Returned r)) /\
  getUsageAnalytics None w
  = (w, Returned (text_result
                    ("✗ Analysis error: " +:+ destructuring_message))).
Proof.
  split; [|reflexivity].
  apply try_catch_returns. intros e w1. unfold ret. eauto.
Qed.

End UsageAnalyticsTool.

End ToolOutcomeFacts.

(* ===================================================================== *)
(** ** apply_reasoning_framework                                         *)
(* ===================================================================== *)

Section ReasoningFacts.
Import Reasoning.
Context `{Engine}.

Lemma allSteps_numbers (p : string) (c : option string) :
  map step (allSteps p c) = seq 1 9.
Proof. reflexivity. Qed.

Lemma map_filter_step (P : nat -> Prop) (Q : ReasoningStep -> Prop)
    `{forall n, Decision (P n)} `{forall s, Decision (Q s)}
    (l : list ReasoningStep) :
  (forall s, Q s <-> P (step s)) ->
  map step (filter Q l) = filter P (map step l).
Proof.
  intros HQP. induction l as [|s l IH]; simpl; [done|].
  rewrite !filter_cons.
  destruct (decide (Q s)) as [HQ|HQ], (decide (P (step s))) as [HP|HP];
    simpl; rewrite ?IH; try done; by apply HQP in HQ || apply HQP in HP.
Qed.

(** The steps applied are the framework's steps 1 to 9 whose number is
    among [focus_steps], in framework order and each once, whatever the
    order and the repetitions of [focus_steps]; numbers that are no step
    are ignored (so the result may be empty), and an absent or empty
    [focus_steps] applies all nine.  At most nine steps are applied. *)
Theorem stepsToApply_selection (args : Args) :
  let selected (n : nat) :=
    match focus_steps args with
    | Some (f :: fs) => focus_includes (f :: fs) n
    | _ => true
    end in
  map step (stepsToApply args)
  = filter (fun n => selected n = true) (seq 1 9) /\
  (length (stepsToApply args) <= 9)%nat.
Proof.
  intros selected.
  assert (map step (stepsToApply args)
          = filter (fun n => selected n = true) (seq 1 9)) as Hsel.
  { unfold stepsToApply, selected.
    destruct (focus_steps args) as [[|f fs]|]; cbv beta iota.
    - by rewrite allSteps_numbers.
    - rewrite (map_filter_step
                 (fun n => focus_includes (f :: fs) n = true)
                 (fun s => focus_includes (f :: fs) (step s) = true))
        by done.
      by rewrite allSteps_numbers.
    - by rewrite allSteps_numbers. }
  split; [exact Hsel|].
  rewrite <- (length_map step), Hsel.
  etransitivity; [apply length_filter|]. reflexivity.
Qed.

End ReasoningFacts.
